(** * lightstore ML server: detector, hot reload and gRPC servicer

    A shallow embedding of [ml/server/app/detector.py] and
    [ml/server/app/servicer.py], of the start-up in
    [ml/server/app/main.py] and of [ml/scripts/sync_classes.py], and
    the properties of the detection engine stated over it.

    Python floats are binary64 values ([PrimFloat.float]); Python
    exceptions are values of [Py.exn] carried by [Py.result]; the
    class-mapping dict is a [gmap]; everything outside the two modules
    (the YOLO model, PIL, the file system, the clocks, uuid4) enters as
    data: a record of functions or of observed values. *)

From Stdlib Require Import Floats ZArith Lia.
From stdpp Require Import gmap strings list pretty.

Local Open Scope Z_scope.
Local Open Scope string_scope.

(** ** Python values *)

Module Py.

Inductive exn :=
| RuntimeError (msg : string)
| KeyError (key : Z)
| ZeroDivisionError (msg : string)
| FileNotFoundError (msg : string)
| PermissionError (msg : string)
| ValueError (msg : string)
| OverflowError (msg : string)
| AttributeError (msg : string)
| Exception (msg : string).

(** [str(e)] *)
Definition str (e : exn) : string :=
  match e with
  | KeyError k => pretty k
  | RuntimeError m | ZeroDivisionError m | FileNotFoundError m
  | PermissionError m | ValueError m | OverflowError m | AttributeError m | Exception m => m
  end.

Inductive result (A : Type) :=
| Ok (a : A)
| Raise (e : exn).
Arguments Ok {A} a.
Arguments Raise {A} e.

Definition bind {A B} (r : result A) (k : A -> result B) : result B :=
  match r with
  | Ok a => k a
  | Raise e => Raise e
  end.

(** [bool(x)] for a float: every value but [0.0] and [-0.0]; NaN is true. *)
Definition truthy (x : float) : bool := negb (PrimFloat.eqb x 0%float).

(** [x or d] where [x : Optional[float]] *)
Definition or_default (x : option float) (d : float) : float :=
  match x with
  | Some v => if truthy v then v else d
  | None => d
  end.

(** [x > 0] for a float [x] *)
Definition gt0 (x : float) : bool := PrimFloat.ltb 0%float x.

(** [int(x)] for a float: truncation toward zero; raises on NaN and on
    the infinities. *)
Definition int (x : float) : result Z :=
  match Prim2SF x with
  | S754_zero _ => Ok 0
  | S754_infinity _ => Raise (OverflowError "cannot convert float infinity to integer")
  | S754_nan => Raise (ValueError "cannot convert float NaN to integer")
  | S754_finite s m e =>
      let a := Z.shiftl (Z.pos m) e in
      Ok (if s then - a else a)
  end.

(** [float(n)] for an int below 2^63 in absolute value (image sizes). *)
Definition float_of_int (n : Z) : float :=
  if decide (n < 0) then PrimFloat.opp (PrimFloat.of_uint63 (Uint63.of_Z (- n)))
  else PrimFloat.of_uint63 (Uint63.of_Z n).

(** [x / n] for a float [x] and an int [n] *)
Definition truediv (x : float) (n : Z) : result float :=
  if decide (n = 0) then Raise (ZeroDivisionError "float division by zero")
  else Ok (PrimFloat.div x (float_of_int n)).

(** [s[:n]] *)
Definition take (n : nat) (s : string) : string := String.substring 0 n s.

End Py.

Global Instance result_bind : MBind Py.result := λ A B k r, Py.bind r k.
Global Instance result_ret : MRet Py.result := λ A a, Py.Ok a.

(** ** config.py *)

Record ModelConfig := {
  model_dir : string;
  model_name : string;
  watch_interval : float;
  default_confidence : float;
  default_iou : float;
  input_size : Z;
}.

Definition model_path (c : ModelConfig) : string :=
  model_dir c +:+ "/" +:+ model_name c.

(** ** The collaborators of detector.py *)

(** A decoded PIL image: only [mode] and [size] are read ([size_]
    here, beside stdpp's [size]). *)
Record Image := {
  mode : string;
  size_ : Z * Z;
}.

(** [image.convert("RGB")] *)
Definition convert (im : Image) (m : string) : Image :=
  {| mode := m; size_ := size_ im |}.

(** What [predict] is called on: a PIL image, or the zero-filled
    [np.zeros((h, w, c))] array of the warm-up. *)
Inductive source :=
| PILImage (im : Image)
| Zeros (h w c : Z).

(** One row of [result.boxes]: [cls[i].item()], [conf[i].item()] and
    [xyxy[i].tolist()]. *)
Record Box := {
  cls : float;
  conf : float;
  xyxy : float * float * float * float;
}.

(** One element of the list [predict] returns; [boxes] may be [None]. *)
Record Results := {
  boxes : option (list Box);
}.

(** A loaded [ultralytics.YOLO] object: its [names] dict (in insertion
    order) and its [predict] method with the keyword arguments [conf],
    [iou] and [imgsz] (absent in the warm-up call). *)
Record YOLO := {
  names : list (Z * string);
  predict : source -> option float -> option float -> option Z ->
            Py.result (list Results);
}.

(** [names.get(k)] *)
Fixpoint names_get (ns : list (Z * string)) (k : Z) : option string :=
  match ns with
  | [] => None
  | (k', v) :: ns' => if decide (k' = k) then Some v else names_get ns' k
  end.

(** [list(names.values())] *)
Definition names_values (ns : list (Z * string)) : list string := ns.*2.

(** ** detector.py: result types *)

Module DetectionResult.
Record t := {
  class_id : Z;
  class_name : string;
  confidence : float;
  x1 : float;
  y1 : float;
  x2 : float;
  y2 : float;
}.
End DetectionResult.

Module InferenceResult.
Record t := {
  detections : list DetectionResult.t;
  inference_time_ms : float;
  model_version : string;
}.
End InferenceResult.

(** ** detector.py: Detector *)

(** The fields of a [Detector] that its methods read and write.  The
    lock [_model_lock] is modelled apart, in [Locking]. *)
Record Detector := {
  config : ModelConfig;
  _model : option YOLO;
  _model_version : string;
  _class_mapping : gmap Z (string * string);
}.

(** [Detector.__init__] *)
Definition Detector_init (c : ModelConfig) : Detector :=
  {| config := c; _model := None; _model_version := "unknown";
     _class_mapping := ∅ |}.

Definition set_model (m : YOLO) (d : Detector) : Detector :=
  {| config := config d; _model := Some m;
     _model_version := _model_version d;
     _class_mapping := _class_mapping d |}.

Definition set_model_version (v : string) (d : Detector) : Detector :=
  {| config := config d; _model := _model d;
     _model_version := v;
     _class_mapping := _class_mapping d |}.

Definition set_class_mapping (m : gmap Z (string * string)) (d : Detector) : Detector :=
  {| config := config d; _model := _model d;
     _model_version := _model_version d;
     _class_mapping := m |}.

(** property [model_loaded] *)
Definition model_loaded (d : Detector) : bool :=
  match _model d with Some _ => true | None => false end.

(** property [class_names] *)
Definition class_names (d : Detector) : list string :=
  match _model d with
  | None => []
  | Some m => names_values (names m)
  end.

(** What one call of [load_model] finds outside the process: whether
    [model_path.exists()], what [YOLO(str(model_path))] gives, and what
    [model_path.stat().st_mtime] gives when it is asked for. *)
Record FileSystem := {
  fs_exists : bool;
  fs_YOLO : Py.result YOLO;
  fs_mtime : Py.result float;
}.

(** [Detector._compute_version] *)
Definition _compute_version (fs : FileSystem) : Py.result string :=
  mtime ← fs_mtime fs;
  n ← Py.int mtime;
  mret ("v" +:+ pretty n).

(** [Detector.load_model].  The assignment to [_model] happens before
    [_compute_version] is evaluated, and [except Exception] turns every
    raise of the [try] block into [return False]. *)
Definition load_model (fs : FileSystem) (d : Detector) : Detector * bool :=
  if negb (fs_exists fs) then (d, false)
  else
    match fs_YOLO fs with
    | Py.Raise _ => (d, false)
    | Py.Ok new_model =>
        let n := input_size (config d) in
        match predict new_model (Zeros n n 3) None None None with
        | Py.Raise _ => (d, false)
        | Py.Ok _ =>
            (* with self._model_lock: *)
            let d1 := set_model new_model d in
            match _compute_version fs with
            | Py.Raise _ => (d1, false)
            | Py.Ok v => (set_model_version v d1, true)
            end
        end
    end.

(** [Detector.update_class_mapping] *)
Definition update_class_mapping (mapping : gmap Z (string * string)) (d : Detector) : Detector :=
  set_class_mapping mapping d.

(** [Detector.get_model_info] *)
Record model_info := {
  mi_version : string;
  mi_architecture : string;
  mi_class_names : list string;
  mi_input_size : Z;
}.

Definition get_model_info (d : Detector) : model_info :=
  match _model d with
  | None =>
      {| mi_version := "none"; mi_architecture := "none";
         mi_class_names := []; mi_input_size := input_size (config d) |}
  | Some m =>
      {| mi_version := _model_version d; mi_architecture := "yolov8";
         mi_class_names := names_values (names m);
         mi_input_size := input_size (config d) |}
  end.

(** ** Request handlers running beside other threads

    [update_class_mapping] takes no lock: another thread may rebind
    [_class_mapping] between any two bytecodes of a running handler.  A
    handler is therefore a computation over the shared [Detector] and a
    list of [pending] interferences, one entry for each time the handler
    loads the attribute [_class_mapping]: [Some m] when another thread
    has completed [update_class_mapping m] since the previous load,
    [None] when none has.  An exhausted list means no further
    interference.  The fields [_model] and [_model_version] are written
    under [_model_lock] only. *)

Record Shared := {
  detector : Detector;
  pending : list (option (gmap Z (string * string)));
}.

Definition Task (A : Type) : Type := Shared -> Py.result A * Shared.

Global Instance Task_ret : MRet Task := λ A a s, (Py.Ok a, s).
Global Instance Task_bind : MBind Task := λ A B k t s,
  match t s with
  | (Py.Ok a, s') => k a s'
  | (Py.Raise e, s') => (Py.Raise e, s')
  end.

Definition raise {A} (e : Py.exn) : Task A := λ s, (Py.Raise e, s).

Definition lift {A} (r : Py.result A) : Task A := λ s, (r, s).

(** [try: t except Exception as e: h e] *)
Definition try_except {A} (t : Task A) (h : Py.exn -> Task A) : Task A := λ s,
  match t s with
  | (Py.Ok a, s') => (Py.Ok a, s')
  | (Py.Raise e, s') => h e s'
  end.

(** A read of a field guarded by the lock. *)
Definition self : Task Detector := λ s, (Py.Ok (detector s), s).

(** One load of the attribute [_class_mapping]. *)
Definition load_class_mapping : Task (gmap Z (string * string)) := λ s,
  match pending s with
  | Some m :: rest =>
      let d := update_class_mapping m (detector s) in
      (Py.Ok (_class_mapping d), {| detector := d; pending := rest |})
  | None :: rest =>
      (Py.Ok (_class_mapping (detector s)),
       {| detector := detector s; pending := rest |})
  | [] => (Py.Ok (_class_mapping (detector s)), s)
  end.

(** A handler run with no other thread touching the mapping. *)
Definition alone (d : Detector) : Shared := {| detector := d; pending := [] |}.

(** What a [detect] call finds outside: the PIL decoder and the two
    readings of [time.perf_counter()]. *)
Record Outside := {
  Image_open : list Byte.byte -> Py.result Image;
  perf_counter_0 : float;
  perf_counter_1 : float;
}.

(** The body of the [for i in range(len(boxes))] loop of
    [Detector.detect]. *)
Definition detect_box (orig_width orig_height : Z) (b : Box) : Task DetectionResult.t :=
  class_id ← lift (Py.int (cls b));
  let confidence := conf b in
  let '(x1, y1, x2, y2) := xyxy b in
  x1_norm ← lift (Py.truediv x1 orig_width);
  y1_norm ← lift (Py.truediv y1 orig_height);
  x2_norm ← lift (Py.truediv x2 orig_width);
  y2_norm ← lift (Py.truediv y2 orig_height);
  mapping ← load_class_mapping;
  class_name ←
    (if decide (is_Some (mapping !! class_id)) then
       mapping' ← load_class_mapping;
       match mapping' !! class_id with
       | Some (_, class_name) => mret class_name
       | None => raise (Py.KeyError class_id)
       end
     else
       d ← self;
       match _model d with
       | Some model =>
           mret (default ("class_" +:+ pretty class_id) (names_get (names model) class_id))
       | None => raise (Py.AttributeError "'NoneType' object has no attribute 'names'")
       end);
  mret {| DetectionResult.class_id := class_id;
          DetectionResult.class_name := class_name;
          DetectionResult.confidence := confidence;
          DetectionResult.x1 := x1_norm;
          DetectionResult.y1 := y1_norm;
          DetectionResult.x2 := x2_norm;
          DetectionResult.y2 := y2_norm |}.

Fixpoint detect_boxes (orig_width orig_height : Z) (bs : list Box) : Task (list DetectionResult.t) :=
  match bs with
  | [] => mret []
  | b :: bs' =>
      r ← detect_box orig_width orig_height b;
      rs ← detect_boxes orig_width orig_height bs';
      mret (r :: rs)
  end.

(** [Detector.detect]; the whole body runs inside [with self._model_lock]. *)
Definition detect (o : Outside) (image_bytes : list Byte.byte)
    (confidence_threshold iou_threshold : option float) : Task InferenceResult.t :=
  d ← self;
  match _model d with
  | None => raise (Py.RuntimeError "Model not loaded")
  | Some model =>
      let conf := Py.or_default confidence_threshold (default_confidence (config d)) in
      let iou := Py.or_default iou_threshold (default_iou (config d)) in
      image ← lift (Image_open o image_bytes);
      let image := if decide (mode image = "RGB") then image else convert image "RGB" in
      let '(orig_width, orig_height) := size_ image in
      let start_time := perf_counter_0 o in
      results ← lift (predict model (PILImage image) (Some conf) (Some iou)
                        (Some (input_size (config d))));
      let inference_time := ((perf_counter_1 o - start_time) * 1000)%float in
      detections ←
        match results with
        | result :: _ =>
            match boxes result with
            | Some bs => detect_boxes orig_width orig_height bs
            | None => mret []
            end
        | [] => mret []
        end;
      d' ← self;
      mret {| InferenceResult.detections := detections;
              InferenceResult.inference_time_ms := inference_time;
              InferenceResult.model_version := _model_version d' |}
  end.

(** ** servicer.py: messages of the generated module [detection_pb2]

    The fields are those the handlers read and write; protobuf's own
    checks on field values are outside the model. *)

Module DetectRequest.
Record t := {
  image : list Byte.byte;
  device_id : string;
  confidence_threshold : float;
  iou_threshold : float;
}.
End DetectRequest.

Module BoundingBox.
Record t := { x1 : float; y1 : float; x2 : float; y2 : float }.
End BoundingBox.

Module Detection.
Record t := {
  class_name : string;
  sku_id : string;
  class_id : Z;
  confidence : float;
  bbox : BoundingBox.t;
}.
End Detection.

Module DetectResponse.
Record t := {
  detections : list Detection.t;
  model_version : string;
  inference_time_ms : float;
  request_id : string;
}.
(** [DetectResponse()]: every field at its protobuf default. *)
Definition empty : t :=
  {| detections := []; model_version := ""; inference_time_ms := 0%float;
     request_id := "" |}.
End DetectResponse.

Module HealthResponse.
Record t := {
  healthy : bool;
  status : string;
  model_loaded : bool;
  uptime_seconds : Z;
}.
End HealthResponse.

Module ModelInfo.
Record t := {
  version : string;
  architecture : string;
  class_names : list string;
  input_width : Z;
  input_height : Z;
  trained_at : string;
  mAP50 : float;
  mAP50_95 : float;
}.
End ModelInfo.

Module ClassInfo.
Record t := { class_id : Z; sku_id : string; class_name : string }.
End ClassInfo.

Module SyncClassesRequest.
Record t := { classes : list ClassInfo.t }.
End SyncClassesRequest.

Module SyncClassesResponse.
Record t := { success : bool; class_count : Z }.
End SyncClassesResponse.

(** [grpc.StatusCode] and the part of [grpc.ServicerContext] the
    handlers write. *)
Inductive StatusCode := OK | UNAVAILABLE | INTERNAL.

Record ServicerContext := {
  code : StatusCode;
  details : string;
}.

Definition set_code (c : StatusCode) (ctx : ServicerContext) : ServicerContext :=
  {| code := c; details := details ctx |}.

Definition set_details (s : string) (ctx : ServicerContext) : ServicerContext :=
  {| code := code ctx; details := s |}.

(** ** servicer.py: DetectionServicer *)

(** The body of the [for det in result.detections] loop of
    [DetectionServicer.Detect]. *)
Definition Detect_detection (det : DetectionResult.t) : Task Detection.t :=
  mapping ← load_class_mapping;
  sku_id ←
    (if decide (is_Some (mapping !! DetectionResult.class_id det)) then
       mapping' ← load_class_mapping;
       match mapping' !! DetectionResult.class_id det with
       | Some v => mret v.1
       | None => raise (Py.KeyError (DetectionResult.class_id det))
       end
     else mret "");
  mret {| Detection.class_name := DetectionResult.class_name det;
          Detection.sku_id := sku_id;
          Detection.class_id := DetectionResult.class_id det;
          Detection.confidence := DetectionResult.confidence det;
          Detection.bbox :=
            {| BoundingBox.x1 := DetectionResult.x1 det;
               BoundingBox.y1 := DetectionResult.y1 det;
               BoundingBox.x2 := DetectionResult.x2 det;
               BoundingBox.y2 := DetectionResult.y2 det |} |}.

Fixpoint Detect_detections (dets : list DetectionResult.t) : Task (list Detection.t) :=
  match dets with
  | [] => mret []
  | det :: dets' =>
      r ← Detect_detection det;
      rs ← Detect_detections dets';
      mret (r :: rs)
  end.

(** [DetectionServicer.Detect]; [uuid4] is [str(uuid.uuid4())]. *)
Definition Detect (o : Outside) (uuid4 : string) (request : DetectRequest.t)
    (context : ServicerContext) : Task (DetectResponse.t * ServicerContext) :=
  let request_id := Py.take 8 uuid4 in
  d ← self;
  if negb (model_loaded d) then
    let context := set_code UNAVAILABLE context in
    let context := set_details "Model not loaded" context in
    mret (DetectResponse.empty, context)
  else
    try_except
      (let conf_threshold :=
         if Py.gt0 (DetectRequest.confidence_threshold request)
         then Some (DetectRequest.confidence_threshold request) else None in
       let iou_threshold :=
         if Py.gt0 (DetectRequest.iou_threshold request)
         then Some (DetectRequest.iou_threshold request) else None in
       result ← detect o (DetectRequest.image request) conf_threshold iou_threshold;
       detections ← Detect_detections (InferenceResult.detections result);
       mret ({| DetectResponse.detections := detections;
                DetectResponse.model_version := InferenceResult.model_version result;
                DetectResponse.inference_time_ms := InferenceResult.inference_time_ms result;
                DetectResponse.request_id := request_id |}, context))
      (λ e,
         let context := set_code INTERNAL context in
         let context := set_details (Py.str e) context in
         mret (DetectResponse.empty, context)).

(** [DetectionServicer.HealthCheck]; [now] is [time.time()]. *)
Definition HealthCheck (start_time now : float) (d : Detector) : Py.result HealthResponse.t :=
  uptime ← Py.int (now - start_time)%float;
  let model_loaded := model_loaded d in
  let '(status, healthy) :=
    if model_loaded then ("healthy", true) else ("model_not_loaded", false) in
  mret {| HealthResponse.healthy := healthy;
          HealthResponse.status := status;
          HealthResponse.model_loaded := model_loaded;
          HealthResponse.uptime_seconds := uptime |}.

(** [DetectionServicer.GetModelInfo] *)
Definition GetModelInfo (d : Detector) : ModelInfo.t :=
  let info := get_model_info d in
  {| ModelInfo.version := mi_version info;
     ModelInfo.architecture := mi_architecture info;
     ModelInfo.class_names := mi_class_names info;
     ModelInfo.input_width := mi_input_size info;
     ModelInfo.input_height := mi_input_size info;
     ModelInfo.trained_at := "";
     ModelInfo.mAP50 := 0%float;
     ModelInfo.mAP50_95 := 0%float |}.

(** The dict built by the loop of [DetectionServicer.SyncClasses]:
    [mapping[cls.class_id] = (cls.sku_id, cls.class_name)] for each
    element in order. *)
Definition build_mapping (classes : list ClassInfo.t) : gmap Z (string * string) :=
  foldl (λ mapping cls,
           <[ClassInfo.class_id cls := (ClassInfo.sku_id cls, ClassInfo.class_name cls)]> mapping)
        ∅ classes.

(** [DetectionServicer.SyncClasses] *)
Definition SyncClasses (request : SyncClassesRequest.t) (d : Detector)
    : SyncClassesResponse.t * Detector :=
  let mapping := build_mapping (SyncClassesRequest.classes request) in
  let d := update_class_mapping mapping d in
  ({| SyncClassesResponse.success := true;
      SyncClassesResponse.class_count := Z.of_nat (size mapping) |}, d).

(** ** detector.py: ModelWatcher

    [_thread] is the thread made by [start], if any, with what its
    [is_alive()] says. *)

Record ModelWatcher := {
  interval : float;
  _last_mtime : option float;
  _running : bool;
  _thread : option bool;
}.

(** [ModelWatcher.__init__] *)
Definition ModelWatcher_init (interval : float) : ModelWatcher :=
  {| interval := interval; _last_mtime := None; _running := false;
     _thread := None |}.

Definition set_last_mtime (m : option float) (w : ModelWatcher) : ModelWatcher :=
  {| interval := interval w; _last_mtime := m; _running := _running w;
     _thread := _thread w |}.

Definition set_running (b : bool) (w : ModelWatcher) : ModelWatcher :=
  {| interval := interval w; _last_mtime := _last_mtime w; _running := b;
     _thread := _thread w |}.

Definition set_thread (t : option bool) (w : ModelWatcher) : ModelWatcher :=
  {| interval := interval w; _last_mtime := _last_mtime w;
     _running := _running w; _thread := t |}.

(** [ModelWatcher._get_mtime]; [stat] is what
    [self.model_path.stat().st_mtime] gives.  Only [FileNotFoundError]
    is caught and becomes [None]; any other error of [stat()] leaves
    the method. *)
Definition _get_mtime (stat : Py.result float) : Py.result (option float) :=
  match stat with
  | Py.Ok m => Py.Ok (Some m)
  | Py.Raise (Py.FileNotFoundError _) => Py.Ok None
  | Py.Raise e => Py.Raise e
  end.

(** [ModelWatcher.start].  [_running] is set before [_get_mtime] is
    called: when that raises, the watcher is left marked as running,
    with no thread. *)
Definition start (stat : Py.result float) (w : ModelWatcher)
    : ModelWatcher * Py.result () :=
  if _running w then (w, Py.Ok ())
  else
    let w := set_running true w in
    match _get_mtime stat with
    | Py.Raise e => (w, Py.Raise e)
    | Py.Ok m =>
        let w := set_last_mtime m w in
        (set_thread (Some true) w, Py.Ok ())
    end.

(** [ModelWatcher.stop]; the thread ends at its next test of
    [_running]. *)
Definition stop (w : ModelWatcher) : ModelWatcher := set_running false w.

Section Watcher.

(** The callback [on_change] acts on some state [W] of the rest of
    the program and sees the outside world [E] as it is when called;
    it returns or raises. *)
Context {W E : Type}.
Variable on_change : E -> W -> W * Py.result bool.

(** [current_mtime > self._last_mtime], or no mtime seen yet *)
Definition changed (last : option float) (current_mtime : float) : bool :=
  match last with
  | None => true
  | Some l => PrimFloat.ltb l current_mtime
  end.

(** A poll that finds the file missing, or not newer than the mtime
    on record: it does nothing, and the loop goes on. *)
Definition no_news (last : option float) (stat : Py.result float) : Prop :=
  match _get_mtime stat with
  | Py.Ok None => True
  | Py.Ok (Some current_mtime) => changed last current_mtime = false
  | Py.Raise _ => False
  end.

(** One iteration of the [while] loop of [_watch_loop], after the
    sleep: [stat] is what [model_path.stat().st_mtime] gives then.
    The third component of the state logs the calls of [on_change].
    An iteration raises when [_get_mtime] does; what [on_change]
    raises is caught and logged. *)
Definition watch_iteration (stat : Py.result float) (e : E)
    (st : ModelWatcher * W * list E) : (ModelWatcher * W * list E) * Py.result () :=
  let '(w, s, calls) := st in
  match _get_mtime stat with
  | Py.Raise err => (st, Py.Raise err)
  | Py.Ok None => (st, Py.Ok ())
  | Py.Ok (Some current_mtime) =>
      if changed (_last_mtime w) current_mtime then
        let w := set_last_mtime (Some current_mtime) w in
        (* try: self.on_change() except Exception: log *)
        let '(s, _) := on_change e s in
        ((w, s, (calls ++ [e])%list), Py.Ok ())
      else (st, Py.Ok ())
  end.

(** [ModelWatcher._watch_loop], run for as many iterations as there
    are entries in [ticks].  The loop ends when [_running] is false,
    and when an iteration raises: the exception leaves the loop, which
    is the end of the thread. *)
Fixpoint _watch_loop (ticks : list (Py.result float * E))
    (st : ModelWatcher * W * list E) : (ModelWatcher * W * list E) * Py.result () :=
  match ticks with
  | [] => (st, Py.Ok ())
  | (stat, e) :: ticks' =>
      if _running st.1.1 then
        match watch_iteration stat e st with
        | (st', Py.Ok _) => _watch_loop ticks' st'
        | (st', Py.Raise err) => (st', Py.Raise err)
        end
      else (st, Py.Ok ())
  end.

End Watcher.

(** [Detector.start_hot_reload] passes [self.load_model] as the callback. *)
Definition reload_callback (fs : FileSystem) (d : Detector) : Detector * Py.result bool :=
  let '(d', r) := load_model fs d in (d', Py.Ok r).

(** ** The lock [_model_lock]

    Each call is a straight-line sequence of steps, of which only
    [Acquire] can block.  [threading.RLock] is re-entrant: the lock
    records its owner and a count.  A call that raises inside a [with]
    block leaves the block through its [Release] all the same. *)

Module Locking.

Inductive work :=
| CheckModel | Decode | Predict | Parse
| PathExists | LoadWeights | WarmUp | Install | ReadNames.

Inductive instr := Acquire | Release | Work (w : work).

Inductive call := DetectCall | LoadModelCall.

Global Instance call_eq_dec : EqDecision call.
Proof. solve_decision. Defined.
Global Instance work_eq_dec : EqDecision work.
Proof. solve_decision. Defined.
Global Instance instr_eq_dec : EqDecision instr.
Proof. solve_decision. Defined.

(** [Detector.detect]: the whole body is inside the [with] block.
    [Detector.load_model]: the path check, [YOLO(...)] and the warm-up
    [predict] come before the [with] block, which holds the two
    assignments; the log line that follows reads [class_names], which
    takes the lock again. *)
Definition code (c : call) : list instr :=
  match c with
  | DetectCall =>
      [Acquire; Work CheckModel; Work Decode; Work Predict; Work Parse; Release]
  | LoadModelCall =>
      [Work PathExists; Work LoadWeights; Work WarmUp;
       Acquire; Work Install; Release;
       Acquire; Work ReadNames; Release]
  end.

Record thread := { what : call; pc : nat }.

Record state := {
  threads : list thread;
  lock : option (nat * nat);
}.


Definition next (thr : thread) : option instr := code (what thr) !! pc thr.

Definition advance (thr : thread) : thread :=
  {| what := what thr; pc := S (pc thr) |}.

(** One step of thread [t]; [None] when [t] has finished or cannot
    proceed. *)
Definition step (t : nat) (st : state) : option state :=
  thr ← threads st !! t;
  i ← next thr;
  let ths := <[t := advance thr]> (threads st) in
  match i with
  | Work _ => Some {| threads := ths; lock := lock st |}
  | Acquire =>
      match lock st with
      | None => Some {| threads := ths; lock := Some (t, 1%nat) |}
      | Some (owner, n) =>
          if decide (owner = t)
          then Some {| threads := ths; lock := Some (t, S n) |}
          else None
      end
  | Release =>
      match lock st with
      | Some (owner, S n) =>
          if decide (owner = t)
          then Some {| threads := ths;
                       lock := match n with O => None | _ => Some (t, n) end |}
          else None
      | _ => None
      end
  end.

Fixpoint run (schedule : list nat) (st : state) : option state :=
  match schedule with
  | [] => Some st
  | t :: rest => st' ← step t st; run rest st'
  end.










(** Two [detect] calls and a reload: the reload has checked the path
    and loaded the weights, the first [detect] has taken the lock and
    checked the model, the reload is about to warm up. *)
Definition st_example : state :=
  {| threads := [ {| what := DetectCall; pc := 2 |};
                  {| what := LoadModelCall; pc := 2 |};
                  {| what := DetectCall; pc := 0 |} ];
     lock := Some (0%nat, 1%nat) |}.

End Locking.

(** ** Concrete inputs used by the examples *)

Module Fixtures.

(** The [model_config] fixture of [tests/test_detector.py]. *)
Definition model_config : ModelConfig :=
  {| model_dir := "models"; model_name := "test.pt";
     watch_interval := 1%float; default_confidence := 0.5%float;
     default_iou := 0.45%float; input_size := 640 |}.

(** The mock model of [test_detect_success]: one box of class 0,
    confidence 0.95, whatever the image. *)
Definition one_box : list Results :=
  [ {| boxes := Some [ {| cls := 0%float; conf := 0.95%float;
                          xyxy := (100, 100, 200, 200)%float |} ] |} ].

Definition mock_model : YOLO :=
  {| names := [(0, "cola"); (1, "sprite")];
     predict := λ _ _ _ _, Py.Ok one_box |}.

(** A retrained model with other intrinsic names. *)
Definition mock_model_2 : YOLO :=
  {| names := [(0, "cola-zero"); (1, "sprite-zero")];
     predict := λ _ _ _ _, Py.Ok one_box |}.

(** The 640x480 RGB image of [sample_image_bytes]. *)
Definition outside : Outside :=
  {| Image_open := λ _, Py.Ok {| mode := "RGB"; size_ := (640, 480) |};
     perf_counter_0 := 1%float; perf_counter_1 := 1.25%float |}.

Definition request : DetectRequest.t :=
  {| DetectRequest.image := []; DetectRequest.device_id := "dev-1";
     DetectRequest.confidence_threshold := 0%float;
     DetectRequest.iou_threshold := 0%float |}.

Definition context : ServicerContext := {| code := OK; details := "" |}.

Definition uuid4 : string := "0f8fad5b-d9cb-469f-a165-70867728950e".

(** The model file is absent. *)
Definition fs_missing : FileSystem :=
  {| fs_exists := false;
     fs_YOLO := Py.Raise (Py.FileNotFoundError "models/test.pt");
     fs_mtime := Py.Raise (Py.FileNotFoundError "models/test.pt") |}.

(** The file is present, loads as [mock_model], mtime 100.5 s. *)
Definition fs_v100 : FileSystem :=
  {| fs_exists := true; fs_YOLO := Py.Ok mock_model;
     fs_mtime := Py.Ok 100.5%float |}.

(** The file is present and loads as [mock_model_2], but is removed
    before [_compute_version] stats it. *)
Definition fs_vanishing : FileSystem :=
  {| fs_exists := true; fs_YOLO := Py.Ok mock_model_2;
     fs_mtime := Py.Raise (Py.FileNotFoundError "models/test.pt") |}.

(** The file is present but does not deserialize. *)
Definition fs_corrupt : FileSystem :=
  {| fs_exists := true; fs_YOLO := Py.Raise (Py.Exception "invalid load key");
     fs_mtime := Py.Ok 200%float |}.

Definition mapping_old : gmap Z (string * string) :=
  {[ 0 := ("sku-001", "Coca-Cola") ]}.

Definition mapping_new : gmap Z (string * string) :=
  {[ 0 := ("sku-999", "Pepsi") ]}.

Definition class_info (k : Z) (sku name : string) : ClassInfo.t :=
  {| ClassInfo.class_id := k; ClassInfo.sku_id := sku; ClassInfo.class_name := name |}.

(** Two triples for class 0. *)
Definition sync_twice_0 : SyncClassesRequest.t :=
  {| SyncClassesRequest.classes :=
       [class_info 0 "sku-001" "Coca-Cola"; class_info 0 "sku-999" "Pepsi"] |}.

End Fixtures.

(** ** Vocabulary of the statements *)

(** The triple that decides class [k]: the last one of the request
    that carries [k]. *)
Definition last_for (k : Z) (cs : list ClassInfo.t) : option ClassInfo.t :=
  last (filter (λ c, ClassInfo.class_id c = k) cs).

(** The load fails at the path check, in [YOLO(...)] or in the warm-up
    on the zero image of side [n]. *)
Definition fails_before_install (n : Z) (fs : FileSystem) : Prop :=
  fs_exists fs = false
  ∨ (∃ e, fs_YOLO fs = Py.Raise e)
  ∨ (∃ m e, fs_YOLO fs = Py.Ok m ∧
            predict m (Zeros n n 3) None None None = Py.Raise e).

(** The detector after a series of [load_model] calls. *)
Definition reloads (fss : list FileSystem) (d : Detector) : Detector :=
  foldl (λ d fs, (load_model fs d).1) d fss.

(** The load gets as far as the [with] block and raises in
    [_compute_version]. *)
Definition fails_in_version (n : Z) (fs : FileSystem) : Prop :=
  ∃ m r e, fs_exists fs = true ∧ fs_YOLO fs = Py.Ok m
           ∧ predict m (Zeros n n 3) None None None = Py.Ok r
           ∧ _compute_version fs = Py.Raise e.

(** The model the detector holds and the version beside it were set by
    one and the same load of [history]. *)
Definition paired (history : list FileSystem) (d : Detector) : Prop :=
  match _model d with
  | None => True
  | Some m => ∃ fs, fs ∈ history ∧ fs_YOLO fs = Py.Ok m
                    ∧ _compute_version fs = Py.Ok (_model_version d)
  end.

(** The display name and the external id of class [k]: from the
    overlay when it has [k]; otherwise the model's own name for [k]
    (["class_<k>"] when the model has none) and the empty external id. *)
Definition resolved (overlay : gmap Z (string * string)) (model : YOLO) (k : Z)
    : string * string :=
  match overlay !! k with
  | Some (external_id, display_name) => (display_name, external_id)
  | None => (default ("class_" +:+ pretty k) (names_get (names model) k), "")
  end.

(** The [DetectionResult] that [detect] builds for box [b] of class [k]. *)
Definition detection_result (overlay : gmap Z (string * string)) (model : YOLO)
    (w h : Z) (b : Box) (k : Z) : DetectionResult.t :=
  let '(x1, y1, x2, y2) := xyxy b in
  {| DetectionResult.class_id := k;
     DetectionResult.class_name := (resolved overlay model k).1;
     DetectionResult.confidence := conf b;
     DetectionResult.x1 := (x1 / Py.float_of_int w)%float;
     DetectionResult.y1 := (y1 / Py.float_of_int h)%float;
     DetectionResult.x2 := (x2 / Py.float_of_int w)%float;
     DetectionResult.y2 := (y2 / Py.float_of_int h)%float |}.

(** [int(boxes.cls[i].item())] where it is defined *)
Definition class_id_of (b : Box) : Z :=
  match Py.int (cls b) with
  | Py.Ok k => k
  | Py.Raise _ => 0
  end.

(** [int(boxes.cls[i].item())] does not raise: the value is finite. *)
Definition has_class_id (b : Box) : Prop := ∃ k, Py.int (cls b) = Py.Ok k.

(** The [Detection] message the servicer builds from a
    [DetectionResult] when the overlay is [overlay]. *)
Definition Detection_of (overlay : gmap Z (string * string)) (det : DetectionResult.t)
    : Detection.t :=
  {| Detection.class_name := DetectionResult.class_name det;
     Detection.sku_id :=
       match overlay !! DetectionResult.class_id det with
       | Some v => v.1
       | None => ""
       end;
     Detection.class_id := DetectionResult.class_id det;
     Detection.confidence := DetectionResult.confidence det;
     Detection.bbox :=
       {| BoundingBox.x1 := DetectionResult.x1 det;
          BoundingBox.y1 := DetectionResult.y1 det;
          BoundingBox.x2 := DetectionResult.x2 det;
          BoundingBox.y2 := DetectionResult.y2 det |} |}.

(** [image.convert("RGB")] unless the image is RGB already *)
Definition rgb (image : Image) : Image :=
  if decide (mode image = "RGB") then image else convert image "RGB".

(** The threshold a call runs with: the requested one when it is
    greater than zero, the configured default otherwise. *)
Definition threshold_used (requested default : float) : float :=
  if Py.gt0 requested then requested else default.

(** The model [m], made to run every prediction with the thresholds
    [c] and [i], whatever it is called with. *)
Definition with_thresholds (c i : float) (m : YOLO) : YOLO :=
  {| names := names m;
     predict := λ src _ _ imgsz, predict m src (Some c) (Some i) imgsz |}.

(** The detector whose model, if it has one, is so pinned. *)
Definition pin (c i : float) (d : Detector) : Detector :=
  {| config := config d; _model := with_thresholds c i <$> _model d;
     _model_version := _model_version d; _class_mapping := _class_mapping d |}.

(** The same for the state a handler runs on. *)
Definition pin_shared (c i : float) (s : Shared) : Shared :=
  {| detector := pin c i (detector s); pending := pending s |}.

(** [t] does the same on a pinned detector, and leaves it pinned. *)
Definition commutes {A} (c i : float) (t : Task A) : Prop :=
  ∀ s, t (pin_shared c i s) = ((t s).1, pin_shared c i (t s).2).



(** No update lands during the run. *)
Definition quiet (s : Shared) : Prop := Forall (λ p, p = None) (pending s).

(** On a quiet state [t] answers as it does alone, and leaves the
    detector as it found it. *)
Definition undisturbed {A} (t : Task A) : Prop :=
  ∀ s, quiet s →
    t (alone (detector s)) = ((t (alone (detector s))).1, alone (detector s))
    ∧ ∃ s', t s = ((t (alone (detector s))).1, s')
            ∧ detector s' = detector s ∧ quiet s'.

(** A handler never writes the model, its version or the configuration. *)
Definition keeps_handle {A} (t : Task A) : Prop :=
  ∀ s, _model (detector (t s).2) = _model (detector s)
       ∧ _model_version (detector (t s).2) = _model_version (detector s)
       ∧ config (detector (t s).2) = config (detector s).

(** The class names and the version of a [detect] result. *)
Definition names_and_version (r : Py.result InferenceResult.t * Shared)
    : option (list string * string) :=
  match r.1 with
  | Py.Ok res =>
      Some (DetectionResult.class_name <$> InferenceResult.detections res,
            InferenceResult.model_version res)
  | Py.Raise _ => None
  end.

(** A model that reports the thresholds it is run with, as the
    confidence and the first coordinate of its one box. *)
Definition probe_model : YOLO :=
  {| names := [(0, "cola")];
     predict := λ _ c i _,
       Py.Ok [ {| boxes := Some [ {| cls := 0%float; conf := default 0%float c;
                                     xyxy := (default 0%float i, 0, 0, 0)%float |} ] |} ] |}.

(** What a [Detect] request with the given two thresholds makes
    [probe_model] report, on a detector configured with the defaults
    0.5 and 0.45. *)
Definition probe_thresholds (confidence_threshold iou_threshold : float)
    : option (list (float * float)) :=
  let d := set_model probe_model (Detector_init Fixtures.model_config) in
  let o := {| Image_open := λ _, Py.Ok {| mode := "RGB"; size_ := (1, 1) |};
              perf_counter_0 := 0%float; perf_counter_1 := 0%float |} in
  let request :=
    {| DetectRequest.image := []; DetectRequest.device_id := "";
       DetectRequest.confidence_threshold := confidence_threshold;
       DetectRequest.iou_threshold := iou_threshold |} in
  match (Detect o "" request Fixtures.context (alone d)).1 with
  | Py.Ok (response, _) =>
      Some ((λ det, (Detection.confidence det, BoundingBox.x1 (Detection.bbox det)))
              <$> DetectResponse.detections response)
  | Py.Raise _ => None
  end.

(** A detector that holds [mock_model] and the overlay [mapping_old];
    [update_class_mapping mapping_new] completes after [detect] has
    returned and before the servicer builds the response (the third
    load of the attribute is the first one in the servicer). *)
Definition update_after_inference : Shared :=
  {| detector :=
       update_class_mapping Fixtures.mapping_old
         (load_model Fixtures.fs_v100 (Detector_init Fixtures.model_config)).1;
     pending := [None; None; Some Fixtures.mapping_new] |}.

(** ** detector.py: the hot-reload switch

    A [Detector] with its field [_watcher].  The watcher's thread is
    the loop [_watch_loop], run with [reload_callback]. *)

Record Hot := {
  this : Detector;
  _watcher : option ModelWatcher;
}.

(** [Detector.start_hot_reload]; [stat] is what the file's [stat()]
    gives when the new watcher is started. *)
Definition start_hot_reload (stat : Py.result float) (h : Hot)
    : Hot * Py.result () :=
  match _watcher h with
  | Some _ => (h, Py.Ok ())
  | None =>
      let w := ModelWatcher_init (watch_interval (config (this h))) in
      (* self._watcher is assigned before start() is called *)
      let '(w, r) := start stat w in
      ({| this := this h; _watcher := Some w |}, r)
  end.

(** [Detector.stop_hot_reload]: the watcher is stopped and dropped. *)
Definition stop_hot_reload (h : Hot) : Hot :=
  match _watcher h with
  | Some _ => {| this := this h; _watcher := None |}
  | None => h
  end.

(** ** main.py

    [serve], up to the creation of the gRPC server: [path_exists] is
    [config.model.model_path.exists()], [fs] is what the [load_model]
    call that may follow finds, and [stat] what the starting watcher
    finds.  What [start_hot_reload] raises leaves [serve], and the
    process with it. *)
Definition serve (c : ModelConfig) (path_exists : bool) (fs : FileSystem)
    (stat : Py.result float) : Py.result Hot :=
  let detector := Detector_init c in
  let detector := if path_exists then (load_model fs detector).1 else detector in
  let '(h, r) := start_hot_reload stat {| this := detector; _watcher := None |} in
  match r with
  | Py.Ok _ => Py.Ok h
  | Py.Raise e => Py.Raise e
  end.

(** The watcher thread of a detector, run over [ticks]: the detector
    as the polls leave it, and the loads they made.  There is nothing
    to run when the watcher has no thread or a dead one; a thread
    whose loop raises is dead from then on. *)
Definition polls (ticks : list (Py.result float * FileSystem)) (h : Hot)
    : Hot * list FileSystem :=
  match _watcher h with
  | None => (h, [])
  | Some w =>
      match _thread w with
      | Some true =>
          let '((w', d, calls), r) :=
            _watch_loop reload_callback ticks (w, this h, []) in
          let w' := match r with
                    | Py.Ok _ => w'
                    | Py.Raise _ => set_thread (Some false) w'
                    end in
          ({| this := d; _watcher := Some w' |}, calls)
      | _ => (h, [])
      end
  end.

(** ** scripts/sync_classes.py

    A SKU record of the catalog, as a JSON object: each of the three
    keys the script reads is present or absent.  What the script
    prints is left out. *)

Module Sku.
Record t := {
  class_id : option Z;
  id : option string;
  name : option string;
}.
End Sku.

(** The [ClassMapping] message that the loop of [update_ml_server]
    builds for the [i]-th SKU: [sku.get("class_id", i)],
    [sku.get("id", str(i))] and [sku.get("name", f"beverage_{i}")]. *)
Definition ClassMapping_of (i : nat) (sku : Sku.t) : ClassInfo.t :=
  {| ClassInfo.class_id := default (Z.of_nat i) (Sku.class_id sku);
     ClassInfo.sku_id := default (pretty (Z.of_nat i)) (Sku.id sku);
     ClassInfo.class_name :=
       default ("beverage_" +:+ pretty (Z.of_nat i)) (Sku.name sku) |}.

(** [update_ml_server], against the servicer of detector [d].  With
    [rpc_error = Some details] the call raises [grpc.RpcError] without
    reaching the servicer, and the function re-raises it (carried here
    by [Py.Exception]). *)
Definition update_ml_server (rpc_error : option string) (skus : list Sku.t)
    (d : Detector) : Py.result () * Detector :=
  let classes := imap ClassMapping_of skus in
  let request := {| SyncClassesRequest.classes := classes |} in
  match rpc_error with
  | Some details => (Py.Raise (Py.Exception details), d)
  | None => let '(_, d') := SyncClasses request d in (Py.Ok (), d')
  end.

(** A value in the training configuration: the keys that
    [update_training_config] writes hold an int or a dict keyed by
    class id; whatever else the file holds is kept as it is. *)
Inductive yaml_value :=
| YInt (n : Z)
| YByClass (m : gmap Z string)
| YOther (text : string).

(** What [yaml.safe_load] gives for the configuration file: a mapping,
    [None] for an empty document, or a list or scalar. *)
Inductive yaml_document :=
| YMapping (m : gmap string yaml_value)
| YNone
| YNotMapping.

(** [update_training_config]: [file] is the loaded document when
    [config_path] exists; the result is the mapping written back.
    The item assignment [config["nc"] = ...] raises [TypeError]
    (carried here by [Py.Exception]) when the document is not a
    mapping. *)
Definition update_training_config (file : option yaml_document) (skus : list Sku.t)
    : Py.result (gmap string yaml_value) :=
  let config := match file with Some doc => doc | None => YMapping ∅ end in
  let classes := imap ClassMapping_of skus in
  let names :=
    foldl (λ names c, <[ClassInfo.class_id c := ClassInfo.class_name c]> names) ∅ classes in
  let sku_mapping :=
    foldl (λ m c, <[ClassInfo.class_id c := ClassInfo.sku_id c]> m) ∅ classes in
  match config with
  | YMapping m =>
      Py.Ok (<["sku_mapping" := YByClass sku_mapping]>
               (<["names" := YByClass names]>
                  (<["nc" := YInt (Z.of_nat (size names))]> m)))
  | YNone =>
      Py.Raise (Py.Exception "'NoneType' object does not support item assignment")
  | YNotMapping =>
      Py.Raise (Py.Exception "object does not support item assignment")
  end.

(** The outcome of [fetch_skus]: the list, or a
    [requests.exceptions.RequestException]. *)
Inductive fetched :=
| Skus (skus : list Sku.t)
| RequestException (msg : string).

(** What [main] of sync_classes.py acts on: the configuration file
    ([None] when it does not exist) and the detector behind the ML
    server. *)
Record SyncWorld := {
  config_file : option yaml_document;
  server : Detector;
}.

(** [main] of sync_classes.py: the exit code, or the exception that
    escapes (the one of [update_training_config], which [main] does
    not catch), and the world it leaves. *)
Definition sync_main (update_config update_server : bool) (fetch : fetched)
    (rpc_error : option string) (world : SyncWorld) : Py.result Z * SyncWorld :=
  if negb update_config && negb update_server then (Py.Ok 1, world)
  else
    match fetch with
    | RequestException _ => (Py.Ok 1, world)
    | Skus [] => (Py.Ok 0, world)
    | Skus skus =>
        let step1 :=
          if update_config then
            match update_training_config (config_file world) skus with
            | Py.Ok written =>
                Py.Ok {| config_file := Some (YMapping written); server := server world |}
            | Py.Raise e => Py.Raise e
            end
          else Py.Ok world in
        match step1 with
        | Py.Raise e => (Py.Raise e, world)
        | Py.Ok world1 =>
            if update_server then
              match update_ml_server rpc_error skus (server world1) with
              | (Py.Ok _, d) =>
                  (Py.Ok 0, {| config_file := config_file world1; server := d |})
              | (Py.Raise _, d) =>
                  (Py.Ok 1, {| config_file := config_file world1; server := d |})
              end
            else (Py.Ok 0, world1)
        end
    end.

(** ** Further vocabulary *)

(** The status code a [Detect] call leaves in the context. *)
Definition Detect_code (o : Outside) (uuid4 : string) (request : DetectRequest.t)
    (context : ServicerContext) (s : Shared) : StatusCode :=
  match (Detect o uuid4 request context s).1 with
  | Py.Ok (_, context') => code context'
  | Py.Raise _ => code context
  end.

(** [predict] found nothing: no result, a result without boxes, or
    one with an empty list of boxes. *)
Definition no_boxes (results : list Results) : Prop :=
  match results with
  | [] => True
  | result :: _ => boxes result = None ∨ boxes result = Some []
  end.

(** The threshold of the specification for a call of [Detector.detect]:
    the configured default when the caller's is absent or not
    positive, the caller's otherwise. *)
Definition threshold_claimed (given : option float) (default : float) : float :=
  match given with
  | Some v => if PrimFloat.leb v 0%float then default else v
  | None => default
  end.

(** The reading of the specification: every [detect] call answers as
    it would if the model ran every prediction with the thresholds so
    chosen. *)
Definition detect_falls_back_when_not_positive : Prop :=
  ∀ o image_bytes confidence_threshold iou_threshold s,
    (detect o image_bytes confidence_threshold iou_threshold s).1 =
    (detect o image_bytes confidence_threshold iou_threshold
       (pin_shared
          (threshold_claimed confidence_threshold
             (default_confidence (config (detector s))))
          (threshold_claimed iou_threshold (default_iou (config (detector s))))
          s)).1.


(** The detections of a response for the boxes [bs], with the display
    names resolved in [names_from] and the external ids looked up in
    [ids_from]. *)
Definition Detections_of (names_from ids_from : gmap Z (string * string))
    (model : YOLO) (w h : Z) (bs : list Box) : list Detection.t :=
  (λ b, Detection_of ids_from (detection_result names_from model w h b (class_id_of b)))
    <$> bs.


(** A poll that makes no call: the file is not newer than the mtime
    on record, or [stat()] raises (the file is missing, or the error
    ends the loop). *)
Definition no_call (last : option float) (stat : Py.result float) : Prop :=
  match stat with
  | Py.Ok current_mtime => changed last current_mtime = false
  | Py.Raise _ => True
  end.


(** The detector whose watcher thread, if it has a watcher, is dead. *)
Definition thread_died (h : Hot) : Hot :=
  {| this := this h; _watcher := set_thread (Some false) <$> _watcher h |}.

(** The class ids the script sends for [skus], in order. *)
Definition sent_ids (skus : list Sku.t) : list Z :=
  ClassInfo.class_id <$> imap ClassMapping_of skus.

(** Three SKUs of a catalog: the second carries the class id that the
    position of the third would give it. *)
Definition skus_colliding : list Sku.t :=
  [ {| Sku.class_id := None; Sku.id := Some "sku-001"; Sku.name := Some "Coca-Cola" |};
    {| Sku.class_id := Some 2; Sku.id := Some "sku-002"; Sku.name := Some "Sprite" |};
    {| Sku.class_id := None; Sku.id := None; Sku.name := None |} ].

(** Two SKUs without class ids. *)
Definition skus_plain : list Sku.t :=
  [ {| Sku.class_id := None; Sku.id := Some "sku-001"; Sku.name := Some "Coca-Cola" |};
    {| Sku.class_id := None; Sku.id := None; Sku.name := None |} ].

(** ** Floats *)

Lemma gt0_truthy x : Py.gt0 x = true → Py.truthy x = true.
Proof.
  unfold Py.gt0, Py.truthy.
  rewrite FloatAxioms.ltb_spec, FloatAxioms.eqb_spec.
  change (Prim2SF 0) with (S754_zero false).
  destruct (Prim2SF x) as [s|s| |s m e]; try destruct s; cbn; congruence.
Qed.

(** A float that is at most zero is not greater than zero. *)
Lemma le0_not_gt0 x : PrimFloat.leb x 0%float = true → Py.gt0 x = false.
Proof.
  unfold Py.gt0.
  rewrite FloatAxioms.ltb_spec, FloatAxioms.leb_spec.
  change (Prim2SF 0) with (S754_zero false).
  destruct (Prim2SF x) as [s|s| |s m e]; try destruct s; cbn; congruence.
Qed.

Lemma ltb_irrefl x : PrimFloat.ltb x x = false.
Proof.
  rewrite FloatAxioms.ltb_spec.
  destruct (Prim2SF x) as [s|s| |s m e]; try destruct s; cbn;
    rewrite ?Z.compare_refl, ?Pos.compare_refl; try reflexivity.
  all: by rewrite Pos.compare_cont_refl.
Qed.

(** [int] truncates toward zero, and the version string is built on it. *)
Example int_truncates :
  Py.int 100.5%float = Py.Ok 100 ∧ Py.int (-2.75)%float = Py.Ok (-2)
  ∧ Py.int 0.25%float = Py.Ok 0 ∧ Py.int 1e3%float = Py.Ok 1000.
Proof. vm_compute. done. Qed.

Example _compute_version_v100 : _compute_version Fixtures.fs_v100 = Py.Ok "v100".
Proof. vm_compute. done. Qed.

(** [x or d] after the servicer's [x if x > 0 else None]. *)
Lemma or_default_gt0 x d :
  Py.or_default (if Py.gt0 x then Some x else None) d = if Py.gt0 x then x else d.
Proof.
  destruct (Py.gt0 x) eqn:H; [|done].
  simpl. by rewrite (gt0_truthy _ H).
Qed.

(** ** SyncClasses and the overlay *)

Lemma build_mapping_snoc cs c :
  build_mapping (cs ++ [c]) =
  <[ClassInfo.class_id c := (ClassInfo.sku_id c, ClassInfo.class_name c)]> (build_mapping cs).
Proof. unfold build_mapping. by rewrite foldl_app. Qed.

Lemma build_mapping_lookup cs k :
  build_mapping cs !! k =
  (λ c, (ClassInfo.sku_id c, ClassInfo.class_name c)) <$> last_for k cs.
Proof.
  unfold last_for.
  induction cs as [|c cs IH] using rev_ind; [done|].
  rewrite build_mapping_snoc, filter_app, lookup_insert.
  case_decide as Hk.
  - rewrite filter_cons_True by done. rewrite filter_nil, last_snoc. done.
  - rewrite filter_cons_False by done. rewrite filter_nil, app_nil_r. done.
Qed.

Lemma build_mapping_dom cs :
  dom (build_mapping cs) = list_to_set (ClassInfo.class_id <$> cs).
Proof.
  induction cs as [|c cs IH] using rev_ind.
  { unfold build_mapping; simpl. by rewrite dom_empty_L. }
  rewrite build_mapping_snoc, dom_insert_L, IH, fmap_app, list_to_set_app_L.
  simpl. rewrite union_empty_r_L. apply union_comm_L.
Qed.

Lemma build_mapping_size cs :
  size (build_mapping cs) = length (remove_dups (ClassInfo.class_id <$> cs)).
Proof.
  rewrite <- size_dom, build_mapping_dom.
  rewrite <- (size_list_to_set (C := gset Z) (remove_dups _)) by apply NoDup_remove_dups.
  f_equal. apply set_eq. intros x.
  by rewrite !elem_of_list_to_set, elem_of_remove_dups.
Qed.

Lemma length_remove_dups_le {A} `{EqDecision A} (l : list A) :
  (length (remove_dups l) ≤ length l)%nat.
Proof.
  induction l as [|x l IH]; simpl; [lia|].
  destruct (decide_rel _ _ _); simpl; lia.
Qed.

(** C9. [SyncClasses] is idempotent: a second call with the same request
    answers exactly as the first and leaves the detector, and so the
    overlay, exactly as the first call left it. *)
Theorem C9_SyncClasses_idempotent (request : SyncClassesRequest.t) (d : Detector) :
  SyncClasses request (SyncClasses request d).2 = SyncClasses request d
  ∧ _class_mapping (SyncClasses request (SyncClasses request d).2).2
    = _class_mapping (SyncClasses request d).2
  ∧ SyncClassesResponse.class_count (SyncClasses request (SyncClasses request d).2).1
    = SyncClassesResponse.class_count (SyncClasses request d).1.
Proof. by destruct d. Qed.

(** C10. With several triples for one class id the last one wins, the
    call reports success, and [class_count] is the number of distinct
    class ids, which is at most the number of triples and can be
    strictly less. *)
Theorem C10_SyncClasses_duplicates :
  (∀ (request : SyncClassesRequest.t) (d : Detector),
     let cs := SyncClassesRequest.classes request in
     let '(response, d') := SyncClasses request d in
     SyncClassesResponse.success response = true
     ∧ (∀ k, _class_mapping d' !! k =
             (λ c, (ClassInfo.sku_id c, ClassInfo.class_name c)) <$> last_for k cs)
     ∧ SyncClassesResponse.class_count response
       = Z.of_nat (length (remove_dups (ClassInfo.class_id <$> cs)))
     ∧ (SyncClassesResponse.class_count response ≤ Z.of_nat (length cs))%Z)
  ∧ (∃ (request : SyncClassesRequest.t) (d : Detector),
       (SyncClassesResponse.class_count (SyncClasses request d).1
        < Z.of_nat (length (SyncClassesRequest.classes request)))%Z).
Proof.
  split.
  - intros request d cs. simpl. split; [done|]. split; [|split].
    + intros k. apply build_mapping_lookup.
    + by rewrite build_mapping_size.
    + rewrite build_mapping_size.
      pose proof (length_remove_dups_le (ClassInfo.class_id <$> cs)) as H.
      rewrite length_fmap in H. subst cs. lia.
  - exists Fixtures.sync_twice_0, (Detector_init Fixtures.model_config).
    vm_compute. done.
Qed.

(** With the duplicate request of the fixtures, class 0 ends up with
    the second triple and the count is 1 for 2 triples. *)
Example SyncClasses_last_wins :
  let '(response, d) := SyncClasses Fixtures.sync_twice_0 (Detector_init Fixtures.model_config) in
  _class_mapping d !! 0 = Some ("sku-999", "Pepsi")
  ∧ SyncClassesResponse.class_count response = 1.
Proof. vm_compute. done. Qed.

(** ** load_model *)

(** Such a load returns [False] and touches nothing. *)
Lemma load_model_fails_before_install fs d :
  fails_before_install (input_size (config d)) fs →
  load_model fs d = (d, false).
Proof.
  unfold load_model. intros [H|[[e H]|(m & e & H1 & H2)]].
  - by rewrite H.
  - rewrite H. by destruct (fs_exists fs).
  - rewrite H1, H2. by destruct (fs_exists fs).
Qed.

(** After any number of such loads a detector is as it was. *)
Lemma reloads_fail_before_install fss d :
  Forall (fails_before_install (input_size (config d))) fss →
  reloads fss d = d.
Proof.
  unfold reloads. induction 1 as [|fs fss H _ IH]; [done|].
  simpl. by rewrite (load_model_fails_before_install _ _ H).
Qed.

(** A load that returns [True] has set the model and its version in the
    one [with] block. *)
Lemma load_model_true fs d d' :
  load_model fs d = (d', true) →
  ∃ m v, fs_YOLO fs = Py.Ok m ∧ _compute_version fs = Py.Ok v ∧
         d' = set_model_version v (set_model m d).
Proof.
  unfold load_model. intros H.
  destruct (fs_exists fs); simpl in H; [|done].
  destruct (fs_YOLO fs) as [m|]; [|done].
  destruct (predict m _ _ _ _); [|done].
  destruct (_compute_version fs) as [v|]; [|done].
  exists m, v. by inversion H.
Qed.

(** A load that returns [False] has either touched nothing, or has
    replaced the model and kept the old version: the case where
    [_compute_version] raised after [self._model = new_model]. *)
Lemma load_model_false fs d d' :
  load_model fs d = (d', false) →
  d' = d ∨ ∃ m e, fs_YOLO fs = Py.Ok m ∧ _compute_version fs = Py.Raise e ∧
                  d' = set_model m d.
Proof.
  unfold load_model. intros H.
  destruct (fs_exists fs); simpl in H; [|left; by inversion H].
  destruct (fs_YOLO fs) as [m|]; [|left; by inversion H].
  destruct (predict m _ _ _ _); [|left; by inversion H].
  destruct (_compute_version fs) as [v|e] eqn:Hv; [done|].
  right. exists m, e. by inversion H.
Qed.

(** Loads against a missing path leave a fresh detector without a model. *)
Lemma load_model_missing_path fs d :
  fs_exists fs = false → load_model fs d = (d, false).
Proof. intros H. apply load_model_fails_before_install. by left. Qed.

(** A detector on which every load so far has failed in one of these
    three ways holds no model. *)
Lemma never_loaded_no_model c fss :
  Forall (fails_before_install (input_size c)) fss →
  _model (reloads fss (Detector_init c)) = None.
Proof. intros H. by rewrite reloads_fail_before_install. Qed.

(** C3, at the failing input: the detector holds [mock_model] as "v100";
    the file is replaced, loads and warms up, and is gone when
    [_compute_version] stats it.  [load_model] returns [False], yet the
    detector now holds the new model under the old version: its class
    names have changed while [get_model_info] still says "v100". *)
Theorem C3_failed_reload_replaces_model :
  let d := (load_model Fixtures.fs_v100 (Detector_init Fixtures.model_config)).1 in
  let '(d', ok) := load_model Fixtures.fs_vanishing d in
  ok = false
  ∧ mi_version (get_model_info d) = "v100"
  ∧ mi_class_names (get_model_info d) = ["cola"; "sprite"]
  ∧ mi_version (get_model_info d') = "v100"
  ∧ mi_class_names (get_model_info d') = ["cola-zero"; "sprite-zero"]
  ∧ d' ≠ d.
Proof.
  vm_compute. repeat split; try reflexivity.
  intros H. discriminate H.
Qed.

(** ** The unloaded detector *)

(** [DetectionServicer.Detect] on a detector without a model. *)
Lemma Detect_unloaded o uuid4 request context s :
  _model (detector s) = None →
  Detect o uuid4 request context s =
  (Py.Ok (DetectResponse.empty,
          {| code := UNAVAILABLE; details := "Model not loaded" |}), s).
Proof.
  intros H. unfold Detect, mbind, Task_bind, self, model_loaded. simpl.
  by rewrite H.
Qed.

(** On a detector that holds no model, [HealthCheck] answers
    unhealthy with status "model_not_loaded" and [model_loaded] false,
    [Detect] sets the fault [UNAVAILABLE] and returns the empty
    response, and [get_model_info] returns the sentinel whose version
    and architecture are "none". *)
Lemma unloaded_detector_answers (d : Detector) (start_time now : float)
    (o : Outside) (uuid4 : string) (request : DetectRequest.t)
    (context : ServicerContext) (pending : list (option (gmap Z (string * string)))) :
  _model d = None →
  HealthCheck start_time now d =
    (uptime ← Py.int (now - start_time)%float;
     mret {| HealthResponse.healthy := false;
             HealthResponse.status := "model_not_loaded";
             HealthResponse.model_loaded := false;
             HealthResponse.uptime_seconds := uptime |})
  ∧ (Detect o uuid4 request context {| detector := d; pending := pending |}).1 =
    Py.Ok (DetectResponse.empty, {| code := UNAVAILABLE; details := "Model not loaded" |})
  ∧ get_model_info d =
    {| mi_version := "none"; mi_architecture := "none"; mi_class_names := [];
       mi_input_size := input_size (config d) |}.
Proof.
  intros H. split; [|split].
  - unfold HealthCheck, model_loaded. by rewrite H.
  - by rewrite Detect_unloaded.
  - unfold get_model_info. by rewrite H.
Qed.

(** The start-up scenario: the model file is absent, the initial
    [load_model] fails, and the three operations answer as above; so
    they do after any number of loads that failed before the install. *)
Example unloaded_at_startup :
  let d := (load_model Fixtures.fs_missing (Detector_init Fixtures.model_config)).1 in
  HealthCheck 10%float 52.5%float d =
      Py.Ok {| HealthResponse.healthy := false;
               HealthResponse.status := "model_not_loaded";
               HealthResponse.model_loaded := false;
               HealthResponse.uptime_seconds := 42 |}
  ∧ (Detect Fixtures.outside Fixtures.uuid4 Fixtures.request Fixtures.context
       {| detector := d; pending := [] |}).1 =
    Py.Ok (DetectResponse.empty, {| code := UNAVAILABLE; details := "Model not loaded" |})
  ∧ mi_version (get_model_info d) = "none".
Proof.
  pose proof (unloaded_detector_answers
    (load_model Fixtures.fs_missing (Detector_init Fixtures.model_config)).1
    10%float 52.5%float Fixtures.outside Fixtures.uuid4 Fixtures.request
    Fixtures.context [] eq_refl) as (H1 & H2 & H3).
  split; [|split].
  - rewrite H1. vm_compute. reflexivity.
  - exact H2.
  - by rewrite H3.
Qed.

(** C7, at the failing input: a fresh detector, on which the one load
    ever made returns [False] (the file loads and warms up, and is gone
    when [_compute_version] stats it).  No model has been successfully
    loaded, yet [HealthCheck] answers healthy, "healthy", with
    [model_loaded] true; [Detect] sets no fault and returns a detection
    named by the model of the failed load, under the version "unknown";
    and [get_model_info] reports the architecture "yolov8" with that
    model's class names, not the sentinel. *)
Theorem C7_failed_first_load_serves :
  let '(d, ok) := load_model Fixtures.fs_vanishing (Detector_init Fixtures.model_config) in
  ok = false
  ∧ HealthCheck 10%float 52.5%float d =
      Py.Ok {| HealthResponse.healthy := true;
               HealthResponse.status := "healthy";
               HealthResponse.model_loaded := true;
               HealthResponse.uptime_seconds := 42 |}
  ∧ (∃ response,
       (Detect Fixtures.outside Fixtures.uuid4 Fixtures.request Fixtures.context
          (alone d)).1 = Py.Ok (response, Fixtures.context)
       ∧ Detection.class_name <$> DetectResponse.detections response = ["cola-zero"]
       ∧ DetectResponse.model_version response = "unknown")
  ∧ get_model_info d =
      {| mi_version := "unknown"; mi_architecture := "yolov8";
         mi_class_names := ["cola-zero"; "sprite-zero"]; mi_input_size := 640 |}.
Proof.
  vm_compute. split; [reflexivity|]. split; [reflexivity|]. split; [|reflexivity].
  eexists. split; [reflexivity|]. split; reflexivity.
Qed.

(** ** Handlers run alone *)

Lemma bind_Ok {A B} (t : Task A) (k : A → Task B) s a s' :
  t s = (Py.Ok a, s') → (t ≫= k) s = k a s'.
Proof. intros H. unfold mbind, Task_bind. by rewrite H. Qed.

Lemma bind_Raise {A B} (t : Task A) (k : A → Task B) s e s' :
  t s = (Py.Raise e, s') → (t ≫= k) s = (Py.Raise e, s').
Proof. intros H. unfold mbind, Task_bind. by rewrite H. Qed.

Lemma load_class_mapping_alone d :
  load_class_mapping (alone d) = (Py.Ok (_class_mapping d), alone d).
Proof. done. Qed.

Lemma truediv_Ok x n : n ≠ 0 → Py.truediv x n = Py.Ok (x / Py.float_of_int n)%float.
Proof. intros H. unfold Py.truediv. by case_decide. Qed.

Lemma detect_box_alone d model w h b k :
  _model d = Some model → w ≠ 0 → h ≠ 0 → Py.int (cls b) = Py.Ok k →
  detect_box w h b (alone d) =
  (Py.Ok (detection_result (_class_mapping d) model w h b k), alone d).
Proof.
  intros Hm Hw Hh Hk. unfold detect_box, detection_result, resolved.
  destruct (xyxy b) as [[[x1 y1] x2] y2].
  rewrite Hk, !truediv_Ok by done.
  unfold mbind, Task_bind, lift, self, mret, Task_ret. simpl.
  destruct (_class_mapping d !! k) as [[sku name]|] eqn:Hl.
  - rewrite decide_True by eauto. simpl. by rewrite Hl.
  - rewrite decide_False by (by intros [? ?]). simpl. by rewrite Hm.
Qed.

Lemma detect_boxes_alone d model w h bs :
  _model d = Some model → w ≠ 0 → h ≠ 0 → Forall has_class_id bs →
  detect_boxes w h bs (alone d) =
  (Py.Ok ((λ b, detection_result (_class_mapping d) model w h b (class_id_of b)) <$> bs),
   alone d).
Proof.
  intros Hm Hw Hh. induction 1 as [|b bs [k Hk] _ IH]; [done|].
  assert (class_id_of b = k) as Hb by (unfold class_id_of; by rewrite Hk).
  cbn [detect_boxes].
  erewrite bind_Ok by (by eapply detect_box_alone).
  erewrite bind_Ok by exact IH.
  by rewrite fmap_cons, Hb.
Qed.

Lemma Detect_detection_alone d det :
  Detect_detection det (alone d) = (Py.Ok (Detection_of (_class_mapping d) det), alone d).
Proof.
  unfold Detect_detection, Detection_of, mbind, Task_bind. simpl.
  destruct (_class_mapping d !! DetectionResult.class_id det) as [v|] eqn:Hl.
  - rewrite decide_True by eauto. simpl. by rewrite Hl.
  - by rewrite decide_False by (by intros [? ?]).
Qed.

Lemma Detect_detections_alone d dets :
  Detect_detections dets (alone d) =
  (Py.Ok (Detection_of (_class_mapping d) <$> dets), alone d).
Proof.
  induction dets as [|det dets IH]; [done|].
  cbn [Detect_detections].
  erewrite bind_Ok by apply Detect_detection_alone.
  by erewrite bind_Ok by exact IH.
Qed.

Lemma detect_alone o image_bytes ct it d model image result rest bs :
  _model d = Some model →
  Image_open o image_bytes = Py.Ok image →
  (size_ image).1 ≠ 0 → (size_ image).2 ≠ 0 →
  predict model (PILImage (rgb image))
    (Some (Py.or_default ct (default_confidence (config d))))
    (Some (Py.or_default it (default_iou (config d))))
    (Some (input_size (config d))) = Py.Ok (result :: rest) →
  boxes result = Some bs →
  Forall has_class_id bs →
  detect o image_bytes ct it (alone d) =
  (Py.Ok {| InferenceResult.detections :=
              (λ b, detection_result (_class_mapping d) model
                      (size_ image).1 (size_ image).2 b (class_id_of b)) <$> bs;
            InferenceResult.inference_time_ms :=
              ((perf_counter_1 o - perf_counter_0 o) * 1000)%float;
            InferenceResult.model_version := _model_version d |},
   alone d).
Proof.
  intros Hm Hi Hw Hh Hp Hb Hbs.
  unfold detect. unfold mbind at 1, Task_bind at 1. simpl. rewrite Hm.
  erewrite bind_Ok by (unfold lift; by rewrite Hi).
  assert (size_ (rgb image) = size_ image) as Hs.
  { unfold rgb. by case_decide. }
  fold (rgb image). rewrite Hs.
  destruct (size_ image) as [w h]. simpl in Hw, Hh.
  erewrite bind_Ok by (unfold lift; by rewrite Hp).
  cbv beta iota. rewrite Hb.
  by erewrite bind_Ok by (by eapply detect_boxes_alone).
Qed.

Lemma Detect_alone o uuid4 request context d model image result rest bs :
  _model d = Some model →
  Image_open o (DetectRequest.image request) = Py.Ok image →
  (size_ image).1 ≠ 0 → (size_ image).2 ≠ 0 →
  predict model (PILImage (rgb image))
    (Some (threshold_used (DetectRequest.confidence_threshold request)
                          (default_confidence (config d))))
    (Some (threshold_used (DetectRequest.iou_threshold request)
                          (default_iou (config d))))
    (Some (input_size (config d))) = Py.Ok (result :: rest) →
  boxes result = Some bs →
  Forall has_class_id bs →
  Detect o uuid4 request context (alone d) =
  (Py.Ok ({| DetectResponse.detections :=
               Detection_of (_class_mapping d) <$>
                 ((λ b, detection_result (_class_mapping d) model
                          (size_ image).1 (size_ image).2 b (class_id_of b)) <$> bs);
             DetectResponse.model_version := _model_version d;
             DetectResponse.inference_time_ms :=
               ((perf_counter_1 o - perf_counter_0 o) * 1000)%float;
             DetectResponse.request_id := Py.take 8 uuid4 |}, context),
   alone d).
Proof.
  intros Hm Hi Hw Hh Hp Hb Hbs.
  unfold Detect. unfold mbind at 1, Task_bind at 1. simpl.
  unfold model_loaded. rewrite Hm. simpl. unfold try_except.
  erewrite bind_Ok; cycle 1.
  { eapply detect_alone; try done. rewrite !or_default_gt0. exact Hp. }
  cbv beta iota. simpl.
  by erewrite bind_Ok by apply Detect_detections_alone.
Qed.



Example Detect_cola_without_overlay :
  let d0 := (load_model Fixtures.fs_v100 (Detector_init Fixtures.model_config)).1 in
  (λ r, (λ det, (Detection.class_name det, Detection.sku_id det))
          <$> DetectResponse.detections r.1) <$>
    match (Detect Fixtures.outside Fixtures.uuid4 Fixtures.request Fixtures.context
             (alone d0)).1 with Py.Ok r => Some r | Py.Raise _ => None end
  = Some [("cola", "")].
Proof. vm_compute. reflexivity. Qed.

Example Detect_cola_with_overlay :
  let d0 := (load_model Fixtures.fs_v100 (Detector_init Fixtures.model_config)).1 in
  let d1 := (SyncClasses
               {| SyncClassesRequest.classes :=
                    [Fixtures.class_info 0 "sku-001" "Coca-Cola"] |} d0).2 in
  (λ r, (λ det, (Detection.class_name det, Detection.sku_id det))
          <$> DetectResponse.detections r.1) <$>
    match (Detect Fixtures.outside Fixtures.uuid4 Fixtures.request Fixtures.context
             (alone d1)).1 with Py.Ok r => Some r | Py.Raise _ => None end
  = Some [("Coca-Cola", "sku-001")].
Proof. vm_compute. reflexivity. Qed.

(** ** Thresholds *)

Lemma or_default_None d : Py.or_default None d = d.
Proof. done. Qed.

Lemma or_default_zero d : Py.or_default (Some 0%float) d = d.
Proof. done. Qed.

(** Called directly, [Detector.detect] replaces only an absent or zero
    threshold: a negative one is truthy and is passed on.  Negative
    values never reach it through the servicer. *)
Example or_default_negative :
  Py.or_default (Some (-0.25)%float) 0.5%float = (-0.25)%float.
Proof. reflexivity. Qed.

Section Pinned.

Variables c i : float.

Lemma commutes_ret {A} (a : A) : commutes c i (mret a).
Proof. done. Qed.

Lemma commutes_raise {A} e : commutes c i (raise (A := A) e).
Proof. done. Qed.

Lemma commutes_lift {A} (r : Py.result A) : commutes c i (lift r).
Proof. done. Qed.

Lemma commutes_bind {A B} (t : Task A) (k : A → Task B) :
  commutes c i t → (∀ a, commutes c i (k a)) → commutes c i (t ≫= k).
Proof.
  intros Ht Hk s. unfold mbind, Task_bind. rewrite Ht.
  destruct (t s) as [[a|e] s']; simpl; [apply Hk|done].
Qed.

Lemma commutes_try_except {A} (t : Task A) (h : Py.exn → Task A) :
  commutes c i t → (∀ e, commutes c i (h e)) → commutes c i (try_except t h).
Proof.
  intros Ht Hh s. unfold try_except. rewrite Ht.
  destruct (t s) as [[a|e] s']; simpl; [done|apply Hh].
Qed.

Lemma commutes_load_class_mapping : commutes c i load_class_mapping.
Proof. intros [d [|[m|] p]]; done. Qed.

Lemma commutes_names (class_id : Z) :
  commutes c i
    (d ← self;
     match _model d with
     | Some model =>
         mret (default ("class_" +:+ pretty class_id)
                       (names_get (names model) class_id))
     | None => raise (Py.AttributeError "'NoneType' object has no attribute 'names'")
     end).
Proof. intros [d p]. unfold mbind, Task_bind. simpl. by destruct (_model d). Qed.

Lemma commutes_detect_box w h b : commutes c i (detect_box w h b).
Proof.
  unfold detect_box. destruct (xyxy b) as [[[x1 y1] x2] y2].
  repeat (apply commutes_bind; [try apply commutes_lift|intros ?]).
  - apply commutes_load_class_mapping.
  - case_decide.
    + apply commutes_bind; [apply commutes_load_class_mapping|intros m].
      destruct (m !! _) as [[? ?]|]; [apply commutes_ret|apply commutes_raise].
    + apply commutes_names.
  - apply commutes_ret.
Qed.

Lemma commutes_detect_boxes w h bs : commutes c i (detect_boxes w h bs).
Proof.
  induction bs as [|b bs IH]; [apply commutes_ret|].
  cbn [detect_boxes].
  apply commutes_bind; [apply commutes_detect_box|intros r].
  apply commutes_bind; [apply IH|intros rs]. apply commutes_ret.
Qed.

Lemma commutes_Detect_detection det : commutes c i (Detect_detection det).
Proof.
  unfold Detect_detection.
  apply commutes_bind; [apply commutes_load_class_mapping|intros m].
  apply commutes_bind; [|intros ?; apply commutes_ret].
  case_decide; [|apply commutes_ret].
  apply commutes_bind; [apply commutes_load_class_mapping|intros m'].
  destruct (m' !! _); [apply commutes_ret|apply commutes_raise].
Qed.

Lemma commutes_Detect_detections dets : commutes c i (Detect_detections dets).
Proof.
  induction dets as [|det dets IH]; [apply commutes_ret|].
  cbn [Detect_detections].
  apply commutes_bind; [apply commutes_Detect_detection|intros r].
  apply commutes_bind; [apply IH|intros rs]. apply commutes_ret.
Qed.

End Pinned.

Lemma self_bind {B} (k : Detector → Task B) s : (self ≫= k) s = k (detector s) s.
Proof. done. Qed.

(** Reduces a goal [t' (pin_shared c i s) = ((t s).1, pin_shared c i (t s).2)],
    where [t'] is [t] up to computation, to [commutes c i t]. *)
Ltac as_commutes c i :=
  match goal with
  | |- _ = ((?t ?s).1, _) =>
      let H := fresh in enough (commutes c i t) as H by (exact (H s))
  end.

Lemma detect_pinned o image_bytes ct it s :
  let c := Py.or_default ct (default_confidence (config (detector s))) in
  let i := Py.or_default it (default_iou (config (detector s))) in
  detect o image_bytes ct it (pin_shared c i s) =
  ((detect o image_bytes ct it s).1, pin_shared c i (detect o image_bytes ct it s).2).
Proof.
  intros c i. unfold detect. rewrite !self_bind. simpl.
  destruct (_model (detector s)) as [model|]; [|done]. simpl.
  as_commutes c i.
  apply commutes_bind; [apply commutes_lift|intros image].
  destruct (size_ _) as [w h].
  apply commutes_bind; [apply commutes_lift|intros results].
  apply commutes_bind.
  - destruct results as [|result ?]; [apply commutes_ret|].
    destruct (boxes result); [apply commutes_detect_boxes|apply commutes_ret].
  - intros dets [d p]. done.
Qed.

(** A [Detect] call answers exactly as it would if the model ran
    every prediction with these two thresholds: for the confidence and
    for the IoU threshold alike, the value of the request when that is
    greater than zero, and the configured default when it is not (a
    field left unset reads as 0).  This holds whatever the state of the
    detector and whatever updates land during the call. *)
Lemma Detect_pinned
    (o : Outside) (uuid4 : string) (request : DetectRequest.t)
    (context : ServicerContext) (s : Shared) :
  let conf := threshold_used (DetectRequest.confidence_threshold request)
                (default_confidence (config (detector s))) in
  let iou := threshold_used (DetectRequest.iou_threshold request)
               (default_iou (config (detector s))) in
  (Detect o uuid4 request context s).1 =
  (Detect o uuid4 request context (pin_shared conf iou s)).1.
Proof.
  intros conf iou.
  enough (Detect o uuid4 request context (pin_shared conf iou s) =
          ((Detect o uuid4 request context s).1,
           pin_shared conf iou (Detect o uuid4 request context s).2)) as ->; [done|].
  unfold Detect. rewrite !self_bind. unfold model_loaded. simpl.
  destruct (_model (detector s)) as [model|] eqn:Hm; [|done]. simpl.
  unfold try_except.
  set (ct := if Py.gt0 (DetectRequest.confidence_threshold request)
             then Some (DetectRequest.confidence_threshold request) else None).
  set (it := if Py.gt0 (DetectRequest.iou_threshold request)
             then Some (DetectRequest.iou_threshold request) else None).
  pose proof (detect_pinned o (DetectRequest.image request) ct it s) as Hd.
  simpl in Hd. subst ct it. rewrite !or_default_gt0 in Hd.
  fold (threshold_used (DetectRequest.confidence_threshold request)
          (default_confidence (config (detector s)))) in Hd.
  fold (threshold_used (DetectRequest.iou_threshold request)
          (default_iou (config (detector s)))) in Hd.
  fold conf iou in Hd.
  unfold mbind, Task_bind. rewrite Hd.
  destruct (detect _ _ _ _ s) as [[result|e] s']; simpl; [|done].
  rewrite (commutes_Detect_detections conf iou).
  by destruct (Detect_detections _ s') as [[dets|e] s''].
Qed.

(** A float below zero is truthy. *)
Lemma lt0_truthy x : PrimFloat.ltb x 0%float = true → Py.truthy x = true.
Proof.
  unfold Py.truthy.
  rewrite FloatAxioms.ltb_spec, FloatAxioms.eqb_spec.
  change (Prim2SF 0) with (S754_zero false).
  destruct (Prim2SF x) as [s|s| |s m e]; try destruct s; cbn; congruence.
Qed.

(** [detect] when [predict] raises. *)
Lemma detect_predict_raises o image_bytes ct it s model image e :
  _model (detector s) = Some model →
  Image_open o image_bytes = Py.Ok image →
  predict model (PILImage (rgb image))
    (Some (Py.or_default ct (default_confidence (config (detector s)))))
    (Some (Py.or_default it (default_iou (config (detector s)))))
    (Some (input_size (config (detector s)))) = Py.Raise e →
  detect o image_bytes ct it s = (Py.Raise e, s).
Proof.
  intros Hm Hi Hp. unfold detect. rewrite self_bind, Hm.
  erewrite bind_Ok by (unfold lift; by rewrite Hi).
  fold (rgb image). destruct (size_ (rgb image)) as [w h].
  apply bind_Raise. unfold lift. by rewrite Hp.
Qed.

(** C8, as stated, fails for the Engine called directly: given the
    confidence threshold -0.25, [detect] runs the model with -0.25 and
    not with the default 0.5, as the model that reports its thresholds
    shows. *)
Lemma C8_negative_threshold_counterexample :
  ¬ detect_falls_back_when_not_positive.
Proof.
  intros H.
  specialize (H Fixtures.outside [] (Some (-0.25)%float) None
                (alone (set_model probe_model (Detector_init Fixtures.model_config)))).
  apply (f_equal (λ r, match r with
                       | Py.Ok res =>
                           (λ det, Py.gt0 (DetectionResult.confidence det))
                             <$> InferenceResult.detections res
                       | Py.Raise _ => []
                       end)) in H.
  vm_compute in H. discriminate H.
Qed.

(** C8, amended. On a loaded detector and an image that decodes, the
    one prediction a call makes is made on the decoded image with two
    thresholds, and its outcome is the outcome of the call.  For a
    [Detect] request each threshold is the request's when that is
    greater than zero and the configured default when it is not; for
    [Detector.detect] called directly it is the default when the
    argument is [None] or zero, and the argument as given otherwise,
    also when it is negative.  (1)-(2): [Detect], when that prediction
    raises and when it returns boxes; (3)-(4): the same for [detect];
    (5)-(7): which thresholds those of [Detect] are; (8)-(11): which
    those of [detect] are. *)
Theorem C8_thresholds_of_a_call
    (o : Outside) (uuid4 : string) (request : DetectRequest.t)
    (context : ServicerContext) (d : Detector) (model : YOLO) (image : Image)
    (confidence_threshold iou_threshold : option float) :
  _model d = Some model →
  Image_open o (DetectRequest.image request) = Py.Ok image →
  let run := λ conf iou,
    predict model (PILImage (rgb image)) (Some conf) (Some iou)
      (Some (input_size (config d))) in
  let conf := threshold_used (DetectRequest.confidence_threshold request)
                (default_confidence (config d)) in
  let iou := threshold_used (DetectRequest.iou_threshold request)
               (default_iou (config d)) in
  let conf' := Py.or_default confidence_threshold (default_confidence (config d)) in
  let iou' := Py.or_default iou_threshold (default_iou (config d)) in
  let w := (size_ image).1 in
  let h := (size_ image).2 in
  (∀ e, run conf iou = Py.Raise e →
     Detect o uuid4 request context (alone d) =
     (Py.Ok (DetectResponse.empty, {| code := INTERNAL; details := Py.str e |}),
      alone d))
  ∧ (∀ result rest bs,
       run conf iou = Py.Ok (result :: rest) → boxes result = Some bs →
       Forall has_class_id bs → w ≠ 0 → h ≠ 0 →
       Detect o uuid4 request context (alone d) =
       (Py.Ok ({| DetectResponse.detections :=
                    Detections_of (_class_mapping d) (_class_mapping d) model w h bs;
                  DetectResponse.model_version := _model_version d;
                  DetectResponse.inference_time_ms :=
                    ((perf_counter_1 o - perf_counter_0 o) * 1000)%float;
                  DetectResponse.request_id := Py.take 8 uuid4 |}, context),
        alone d))
  ∧ (∀ e, run conf' iou' = Py.Raise e →
       detect o (DetectRequest.image request) confidence_threshold iou_threshold
         (alone d) = (Py.Raise e, alone d))
  ∧ (∀ result rest bs,
       run conf' iou' = Py.Ok (result :: rest) → boxes result = Some bs →
       Forall has_class_id bs → w ≠ 0 → h ≠ 0 →
       detect o (DetectRequest.image request) confidence_threshold iou_threshold
         (alone d) =
       (Py.Ok {| InferenceResult.detections :=
                   (λ b, detection_result (_class_mapping d) model w h b (class_id_of b))
                     <$> bs;
                 InferenceResult.inference_time_ms :=
                   ((perf_counter_1 o - perf_counter_0 o) * 1000)%float;
                 InferenceResult.model_version := _model_version d |},
        alone d))
  ∧ (∀ x default, PrimFloat.ltb 0 x = true → threshold_used x default = x)
  ∧ (∀ x default, PrimFloat.ltb 0 x = false → threshold_used x default = default)
  ∧ (∀ x default, PrimFloat.leb x 0 = true → threshold_used x default = default)
  ∧ (∀ default, Py.or_default None default = default)
  ∧ (∀ x default,
       PrimFloat.eqb x 0 = true → Py.or_default (Some x) default = default)
  ∧ (∀ x default,
       PrimFloat.eqb x 0 = false → Py.or_default (Some x) default = x)
  ∧ (∀ x default,
       PrimFloat.ltb x 0 = true → Py.or_default (Some x) default = x).
Proof.
  intros Hm Hi run conf iou conf' iou' w h.
  repeat apply conj.
  - intros e Hp. unfold Detect. rewrite self_bind.
    unfold model_loaded. simpl. rewrite Hm. simpl. unfold try_except.
    erewrite bind_Raise; [done|].
    apply (detect_predict_raises o _ _ _ (alone d) model image); try done.
    simpl. rewrite !or_default_gt0. exact Hp.
  - intros result rest bs Hp Hb Hbs Hw Hh.
    rewrite (Detect_alone o uuid4 request context d model image result rest bs) by done.
    unfold Detections_of. by rewrite <- list_fmap_compose.
  - intros e Hp. by apply (detect_predict_raises o _ _ _ (alone d) model image).
  - intros result rest bs Hp Hb Hbs Hw Hh.
    by apply (detect_alone o _ _ _ d model image result rest bs).
  - intros x default Hx. unfold threshold_used, Py.gt0. by rewrite Hx.
  - intros x default Hx. unfold threshold_used, Py.gt0. by rewrite Hx.
  - intros x default Hx. unfold threshold_used. by rewrite le0_not_gt0.
  - done.
  - intros x default Hx. unfold Py.or_default, Py.truthy. by rewrite Hx.
  - intros x default Hx. unfold Py.or_default, Py.truthy. by rewrite Hx.
  - intros x default Hx. unfold Py.or_default. by rewrite lt0_truthy.
Qed.

(** The loaded detector of the fixtures, configured with the defaults
    0.5 and 0.45, and a model that reports the thresholds it is run
    with: a request that sets the confidence threshold to -1 and
    leaves the other unset is answered with the defaults; [detect]
    given -0.25 and [None] runs the model with -0.25 and 0.45. *)
Lemma C8_thresholds_of_a_call_witness :
  let d := set_model probe_model (Detector_init Fixtures.model_config) in
  let request :=
    {| DetectRequest.image := []; DetectRequest.device_id := "dev-1";
       DetectRequest.confidence_threshold := (-1)%float;
       DetectRequest.iou_threshold := 0%float |} in
  (∃ response,
     Detect Fixtures.outside Fixtures.uuid4 request Fixtures.context (alone d) =
       (Py.Ok (response, Fixtures.context), alone d)
     ∧ Detection.confidence <$> DetectResponse.detections response = [0.5%float]
     ∧ (λ det, BoundingBox.x1 (Detection.bbox det))
         <$> DetectResponse.detections response = [(0.45 / 640)%float])
  ∧ (∃ res,
       detect Fixtures.outside [] (Some (-0.25)%float) None (alone d) =
         (Py.Ok res, alone d)
       ∧ DetectionResult.confidence <$> InferenceResult.detections res
         = [(-0.25)%float]).
Proof.
  intros d request.
  pose proof (C8_thresholds_of_a_call Fixtures.outside Fixtures.uuid4 request
                Fixtures.context d probe_model {| mode := "RGB"; size_ := (640, 480) |}
                (Some (-0.25)%float) None eq_refl eq_refl)
    as (_ & H2 & _ & H4 & _).
  split.
  - eexists. split.
    + apply (H2 {| boxes := Some [ {| cls := 0%float; conf := 0.5%float;
                                      xyxy := (0.45, 0, 0, 0)%float |} ] |} []
               [ {| cls := 0%float; conf := 0.5%float;
                    xyxy := (0.45, 0, 0, 0)%float |} ]).
      * reflexivity.
      * reflexivity.
      * constructor; [|constructor]. exists 0. vm_compute. reflexivity.
      * simpl. lia.
      * simpl. lia.
    + split; vm_compute; reflexivity.
  - eexists. split.
    + apply (H4 {| boxes := Some [ {| cls := 0%float; conf := (-0.25)%float;
                                      xyxy := (0.45, 0, 0, 0)%float |} ] |} []
               [ {| cls := 0%float; conf := (-0.25)%float;
                    xyxy := (0.45, 0, 0, 0)%float |} ]).
      * reflexivity.
      * reflexivity.
      * constructor; [|constructor]. exists 0. vm_compute. reflexivity.
      * simpl. lia.
      * simpl. lia.
    + vm_compute. reflexivity.
Defined.

(** The defaults show for a request that sets neither threshold or
    sets them negative; the requested values show when positive. *)
Example thresholds_unset : probe_thresholds 0 0 = Some [(0.5, 0.45)%float].
Proof. vm_compute. reflexivity. Qed.

Example thresholds_negative : probe_thresholds (-1) (-0.5) = Some [(0.5, 0.45)%float].
Proof. vm_compute. reflexivity. Qed.

Example thresholds_given : probe_thresholds 0.25 0.75 = Some [(0.25, 0.75)%float].
Proof. vm_compute. reflexivity. Qed.

(** ** The overlay under concurrent updates *)

Lemma undisturbed_ret {A} (a : A) : undisturbed (mret a).
Proof. intros s Hs. split; [done|]. by exists s. Qed.

Lemma undisturbed_raise {A} e : undisturbed (raise (A := A) e).
Proof. intros s Hs. split; [done|]. by exists s. Qed.

Lemma undisturbed_lift {A} (r : Py.result A) : undisturbed (lift r).
Proof. intros s Hs. split; [done|]. by exists s. Qed.

Lemma undisturbed_self : undisturbed self.
Proof. intros s Hs. split; [done|]. by exists s. Qed.

Lemma undisturbed_load_class_mapping : undisturbed load_class_mapping.
Proof.
  intros [d p] Hs. split; [done|]. unfold quiet in Hs. simpl in Hs.
  destruct Hs as [|? p -> Hp]; (eexists; split; [reflexivity|]); simpl.
  - split; [done|]. by apply Forall_nil.
  - by split.
Qed.

Lemma undisturbed_bind {A B} (t : Task A) (k : A → Task B) :
  undisturbed t → (∀ a, undisturbed (k a)) → undisturbed (t ≫= k).
Proof.
  intros Ht Hk s Hs. destruct (Ht s Hs) as (H0 & s' & H1 & Hd & Hq).
  unfold mbind, Task_bind. rewrite H0, H1.
  destruct (t (alone (detector s))).1 as [a|e]; [|split; [done|by exists s']].
  destruct (Hk a s' Hq) as (H0' & s'' & H1' & Hd' & Hq').
  rewrite Hd in *. split; [done|]. exists s''. by rewrite Hd'.
Qed.

Lemma undisturbed_try_except {A} (t : Task A) (h : Py.exn → Task A) :
  undisturbed t → (∀ e, undisturbed (h e)) → undisturbed (try_except t h).
Proof.
  intros Ht Hh s Hs. destruct (Ht s Hs) as (H0 & s' & H1 & Hd & Hq).
  unfold try_except. rewrite H0, H1.
  destruct (t (alone (detector s))).1 as [a|e]; [split; [done|by exists s']|].
  destruct (Hh e s' Hq) as (H0' & s'' & H1' & Hd' & Hq').
  rewrite Hd in *. split; [done|]. exists s''. by rewrite Hd'.
Qed.

Create HintDb undisturbed.
Create HintDb keeps_handle.
#[export] Hint Resolve undisturbed_ret undisturbed_raise undisturbed_lift
  undisturbed_self undisturbed_load_class_mapping : undisturbed.

(** Follows the structure of a handler: binds, then the branches of
    its conditionals. *)
Ltac undisturbed_step :=
  first
    [ apply undisturbed_bind; [|intros ?]
    | apply undisturbed_try_except; [|intros ?]
    | solve [auto with undisturbed]
    | match goal with
      | |- undisturbed (if ?b then _ else _) => destruct b
      | |- undisturbed (match ?x with _ => _ end) => destruct x
      end ].

Lemma undisturbed_detect_boxes w h bs : undisturbed (detect_boxes w h bs).
Proof.
  induction bs as [|b bs IH]; cbn [detect_boxes]; [auto with undisturbed|].
  apply undisturbed_bind; [|intros r; repeat undisturbed_step; exact IH].
  unfold detect_box. repeat undisturbed_step.
Qed.

Lemma undisturbed_Detect_detections dets : undisturbed (Detect_detections dets).
Proof.
  induction dets as [|det dets IH]; cbn [Detect_detections]; [auto with undisturbed|].
  apply undisturbed_bind; [|intros r; repeat undisturbed_step; exact IH].
  unfold Detect_detection. repeat undisturbed_step.
Qed.

#[export] Hint Resolve undisturbed_detect_boxes undisturbed_Detect_detections : undisturbed.


(** The response then names the detection from the old overlay and
    takes its external id from the new one. *)
Example Detect_half_old_half_new :
  (λ r, (λ det, (Detection.class_name det, Detection.sku_id det))
          <$> DetectResponse.detections r.1) <$>
    match (Detect Fixtures.outside Fixtures.uuid4 Fixtures.request Fixtures.context
             update_after_inference).1 with Py.Ok r => Some r | Py.Raise _ => None end
  = Some [("Coca-Cola", "sku-999")].
Proof. vm_compute. reflexivity. Qed.


(** *** An update that lands in the course of a call *)











(** ** The version a result carries *)

Lemma keeps_handle_ret {A} (a : A) : keeps_handle (mret a).
Proof. done. Qed.

Lemma keeps_handle_raise {A} e : keeps_handle (raise (A := A) e).
Proof. done. Qed.

Lemma keeps_handle_lift {A} (r : Py.result A) : keeps_handle (lift r).
Proof. done. Qed.

Lemma keeps_handle_self : keeps_handle self.
Proof. done. Qed.

Lemma keeps_handle_load_class_mapping : keeps_handle load_class_mapping.
Proof. intros [d [|[m|] p]]; done. Qed.

Lemma keeps_handle_bind {A B} (t : Task A) (k : A → Task B) :
  keeps_handle t → (∀ a, keeps_handle (k a)) → keeps_handle (t ≫= k).
Proof.
  intros Ht Hk s. specialize (Ht s). unfold mbind, Task_bind.
  destruct (t s) as [[a|e] s1]; [|done].
  destruct (Hk a s1) as (-> & -> & ->). done.
Qed.

#[export] Hint Resolve keeps_handle_ret keeps_handle_raise keeps_handle_lift
  keeps_handle_self keeps_handle_load_class_mapping : keeps_handle.

Ltac keeps_handle_step :=
  first
    [ apply keeps_handle_bind; [|intros ?]
    | solve [auto with keeps_handle]
    | match goal with
      | |- keeps_handle (if ?b then _ else _) => destruct b
      | |- keeps_handle (match ?x with _ => _ end) => destruct x
      end ].

Lemma keeps_handle_detect_boxes w h bs : keeps_handle (detect_boxes w h bs).
Proof.
  induction bs as [|b bs IH]; cbn [detect_boxes]; [auto with keeps_handle|].
  apply keeps_handle_bind; [|intros r; repeat keeps_handle_step; exact IH].
  unfold detect_box. repeat keeps_handle_step.
Qed.

(** Whatever the interference, a [detect] call that returns has run the
    model that was installed when it took the lock, and reports the
    [_model_version] that stood beside that model. *)
Lemma detect_reports_current_version o image_bytes ct it s res s' :
  detect o image_bytes ct it s = (Py.Ok res, s') →
  is_Some (_model (detector s))
  ∧ InferenceResult.model_version res = _model_version (detector s).
Proof.
  unfold detect. rewrite self_bind.
  destruct (_model (detector s)) as [model|]; [|done].
  intros H. split; [done|]. revert H.
  unfold mbind at 1, Task_bind at 1. unfold lift at 1.
  destruct (Image_open o image_bytes) as [image|]; [|done].
  destruct (size_ _) as [w h].
  unfold mbind at 1, Task_bind at 1. unfold lift at 1.
  destruct (predict _ _ _ _ _) as [results|]; [|done].
  unfold mbind at 1, Task_bind at 1.
  match goal with
  | |- context [match ?t s with _ => _ end] =>
      assert (keeps_handle t) as Hk
  end.
  { destruct results as [|result ?]; [apply keeps_handle_ret|].
    destruct (boxes result);
      [apply keeps_handle_detect_boxes|apply keeps_handle_ret]. }
  specialize (Hk s).
  match goal with
  | |- context [match ?t s with _ => _ end] => destruct (t s) as [[dets|e] s1]
  end; [|done].
  rewrite self_bind. destruct Hk as (_ & Hv & _).
  intros [= <- <-]. exact Hv.
Qed.

Lemma load_model_config fs d : config (load_model fs d).1 = config d.
Proof.
  unfold load_model. destruct (fs_exists fs); simpl; [|done].
  destruct (fs_YOLO fs) as [m|]; [|done].
  destruct (predict m _ _ _ _); [|done].
  by destruct (_compute_version fs).
Qed.

Lemma paired_load_model history fs d :
  paired history d → ¬ fails_in_version (input_size (config d)) fs →
  paired (history ++ [fs]) (load_model fs d).1.
Proof.
  intros Hp Hf.
  assert (paired (history ++ [fs]) d) as Hp'.
  { unfold paired in *. destruct (_model d); [|done].
    destruct Hp as (fs' & Hin & H). exists fs'. split; [|done].
    apply elem_of_app. by left. }
  unfold load_model. destruct (fs_exists fs) eqn:He; simpl; [|done].
  destruct (fs_YOLO fs) as [m|] eqn:Hy; [|done].
  destruct (predict m _ _ _ _) as [r|] eqn:Hw; [|done].
  destruct (_compute_version fs) as [v|e] eqn:Hv; simpl.
  - exists fs. split; [|done]. apply elem_of_app. right. apply list_elem_of_here.
  - destruct Hf. by exists m, r, e.
Qed.

Lemma reloads_snoc fss fs d :
  reloads (fss ++ [fs]) d = (load_model fs (reloads fss d)).1.
Proof. unfold reloads. by rewrite foldl_app. Qed.

Lemma reloads_config fss d : config (reloads fss d) = config d.
Proof.
  induction fss as [|fs fss IH] using rev_ind; [done|].
  by rewrite reloads_snoc, load_model_config.
Qed.

Lemma paired_reloads c fss :
  Forall (λ fs, ¬ fails_in_version (input_size c) fs) fss →
  paired fss (reloads fss (Detector_init c)).
Proof.
  induction fss as [|fs fss IH] using rev_ind; [done|].
  rewrite Forall_app, Forall_singleton. intros [Hfss Hfs].
  rewrite reloads_snoc. apply paired_load_model; [by apply IH|].
  by rewrite reloads_config.
Qed.

(** After a series of loads none of which fails in [_compute_version],
    a [detect] call that returns has run a model that one of the loads
    installed, and reports the version that this very load computed. *)
Lemma detect_version_of_installed_handle c fss mapping pending o image_bytes ct it res s' :
  Forall (λ fs, ¬ fails_in_version (input_size c) fs) fss →
  detect o image_bytes ct it
    {| detector := update_class_mapping mapping (reloads fss (Detector_init c));
       pending := pending |} = (Py.Ok res, s') →
  ∃ fs m, fs ∈ fss ∧ fs_YOLO fs = Py.Ok m
          ∧ _model (reloads fss (Detector_init c)) = Some m
          ∧ _compute_version fs = Py.Ok (InferenceResult.model_version res).
Proof.
  intros Hfss Hd.
  apply detect_reports_current_version in Hd as [[m Hm] Hv]. simpl in Hm, Hv.
  pose proof (paired_reloads c fss Hfss) as Hp. unfold paired in Hp.
  rewrite Hm in Hp. destruct Hp as (fs & Hin & Hy & Hc).
  exists fs, m. by rewrite Hv.
Qed.

(** C2, at the failing input: [mock_model] is installed as "v100"; the
    next reload loads [mock_model_2] and raises in [_compute_version]
    after the model was assigned, so it returns [False].  The [detect]
    call that follows runs [mock_model_2] (its detection is named
    "cola-zero") and reports the version "v100", which was computed for
    [mock_model]: no load has installed the model in use together with
    the version reported. *)
Theorem C2_result_carries_version_of_replaced_model :
  let d1 := reloads [Fixtures.fs_v100] (Detector_init Fixtures.model_config) in
  let d2 := reloads [Fixtures.fs_v100; Fixtures.fs_vanishing]
              (Detector_init Fixtures.model_config) in
  names_and_version (detect Fixtures.outside [] None None (alone d1))
    = Some (["cola"], "v100")
  ∧ (load_model Fixtures.fs_vanishing d1).2 = false
  ∧ names_and_version (detect Fixtures.outside [] None None (alone d2))
    = Some (["cola-zero"], "v100")
  ∧ ¬ paired [Fixtures.fs_v100; Fixtures.fs_vanishing] d2.
Proof.
  split; [by vm_compute|]. split; [by vm_compute|]. split; [by vm_compute|].
  intros (fs & Hin & Hy & Hc).
  apply elem_of_cons in Hin as [->|Hin]; [discriminate Hy|].
  apply elem_of_cons in Hin as [->|Hin]; [discriminate Hc|].
  by apply elem_of_nil in Hin.
Qed.

(** ** The watcher *)

Section WatcherFacts.

Context {W E : Type}.
Variable on_change : E → W → W * Py.result bool.

Lemma watch_iteration_no_news stat e w s calls :
  no_news (_last_mtime w) stat →
  watch_iteration on_change stat e (w, s, calls) = ((w, s, calls), Py.Ok ()).
Proof.
  unfold no_news, watch_iteration. destruct (_get_mtime stat) as [[m|]|]; [|done..].
  by intros ->.
Qed.

Lemma watch_iteration_news m e w s calls :
  changed (_last_mtime w) m = true →
  watch_iteration on_change (Py.Ok m) e (w, s, calls) =
  ((set_last_mtime (Some m) w, (on_change e s).1, (calls ++ [e])%list), Py.Ok ()).
Proof.
  unfold watch_iteration. simpl. intros ->. by destruct (on_change e s).
Qed.

Lemma _watch_loop_no_news ticks w s calls :
  Forall (λ t, no_news (_last_mtime w) t.1) ticks →
  _watch_loop on_change ticks (w, s, calls) = ((w, s, calls), Py.Ok ()).
Proof.
  induction 1 as [|[stat e] ticks H _ IH]; [done|].
  cbn [_watch_loop fst]. destruct (_running w); [|done].
  by rewrite watch_iteration_no_news.
Qed.

(** Once [m] is on record, the file missing or still at [m] is no news. *)
Lemma no_news_recorded m w stat :
  _get_mtime stat = Py.Ok None ∨ _get_mtime stat = Py.Ok (Some m) →
  no_news (_last_mtime (set_last_mtime (Some m) w)) stat.
Proof.
  unfold no_news. intros [->| ->]; [done|]. simpl. apply ltb_irrefl.
Qed.

Lemma watch_iteration_running stat e st :
  _running (watch_iteration on_change stat e st).1.1.1 = _running st.1.1.
Proof.
  destruct st as [[w s] calls]. unfold watch_iteration.
  destruct (_get_mtime stat) as [[m|]|]; [|done..].
  destruct (changed _ _); [|done]. by destruct (on_change e s).
Qed.

Lemma _watch_loop_stopped ticks st :
  _running st.1.1 = false → _watch_loop on_change ticks st = (st, Py.Ok ()).
Proof. intros H. destruct ticks as [|[stat e] ticks]; [done|]. simpl. by rewrite H. Qed.

Lemma _watch_loop_running ticks : ∀ st,
  _running (_watch_loop on_change ticks st).1.1.1 = _running st.1.1.
Proof.
  induction ticks as [|[stat e] ticks IH]; intros st; [done|].
  cbn [_watch_loop]. destruct (_running st.1.1) eqn:Hr; [|done].
  pose proof (watch_iteration_running stat e st) as Hi.
  destruct (watch_iteration on_change stat e st) as [st' [[]|err]].
  - rewrite IH. simpl in Hi. congruence.
  - simpl in *. congruence.
Qed.

(** A loop that has not raised goes on with the polls that follow. *)
Lemma _watch_loop_app ticks more : ∀ st st',
  _watch_loop on_change ticks st = (st', Py.Ok ()) →
  _watch_loop on_change (ticks ++ more) st = _watch_loop on_change more st'.
Proof.
  induction ticks as [|[stat e] ticks IH]; intros st st'.
  - by intros [= <-].
  - cbn [app _watch_loop]. destruct (_running st.1.1) eqn:Hr.
    + destruct (watch_iteration on_change stat e st) as [st1 [[]|err]]; [apply IH|done].
    + intros [= <-]. by rewrite _watch_loop_stopped.
Qed.

(** Polls whose [stat()] succeeds or finds the file missing do not
    end the loop. *)
Lemma _watch_loop_Ok ticks : ∀ st,
  Forall (λ t, ∃ m, _get_mtime t.1 = Py.Ok m) ticks →
  (_watch_loop on_change ticks st).2 = Py.Ok ().
Proof.
  induction ticks as [|[stat e] ticks IH]; intros st Ht; [done|].
  apply Forall_cons in Ht as [[m Hm] Ht]. simpl in Hm.
  cbn [_watch_loop]. destruct (_running st.1.1); [|done].
  destruct st as [[w s] calls]. unfold watch_iteration. rewrite Hm.
  destruct m as [m|]; [|by apply IH].
  destruct (changed _ _); [|by apply IH].
  destruct (on_change e s). by apply IH.
Qed.

(** A poll whose [stat()] raises anything but [FileNotFoundError]
    ends the loop then and there. *)
Lemma _watch_loop_raise err e ticks st :
  _running st.1.1 = true → (∀ msg, err ≠ Py.FileNotFoundError msg) →
  _watch_loop on_change ((Py.Raise err, e) :: ticks) st = (st, Py.Raise err).
Proof.
  intros Hr He. cbn [_watch_loop]. rewrite Hr.
  destruct st as [[w s] calls]. unfold watch_iteration.
  destruct err; try done. by destruct (He msg).
Qed.

Lemma watch_iteration_no_call stat e w s calls :
  no_call (_last_mtime w) stat →
  (watch_iteration on_change stat e (w, s, calls)).1 = (w, s, calls).
Proof.
  unfold no_call, watch_iteration. destruct stat as [m|err]; simpl.
  - by intros ->.
  - intros _. by destruct err.
Qed.

Lemma _watch_loop_no_call ticks w s calls :
  Forall (λ t, no_call (_last_mtime w) t.1) ticks →
  (_watch_loop on_change ticks (w, s, calls)).1 = (w, s, calls).
Proof.
  induction 1 as [|[stat e] ticks H _ IH]; [done|].
  cbn [_watch_loop fst]. destruct (_running w); [|done].
  pose proof (watch_iteration_no_call stat e w s calls H) as Hi.
  destruct (watch_iteration on_change stat e (w, s, calls)) as [st' [[]|err]];
    simpl in Hi; by subst st'.
Qed.




End WatcherFacts.



(** With [load_model] as the callback and a file that loads, the
    version changes at the poll that sees the new mtime and stays. *)
Example watcher_version_changes_once :
  let w := (start (Py.Ok 100.5%float) (ModelWatcher_init 1%float)).1 in
  let d := (load_model Fixtures.fs_v100 (Detector_init Fixtures.model_config)).1 in
  let fs_v200 := {| fs_exists := true; fs_YOLO := Py.Ok Fixtures.mock_model_2;
                    fs_mtime := Py.Ok 200%float |} in
  let after n := (_watch_loop reload_callback
                    (replicate n (Py.Ok 200%float, fs_v200)) (w, d, [])).1 in
  mi_version (get_model_info d) = "v100"
  ∧ mi_version (get_model_info (after 1%nat).1.2) = "v200"
  ∧ mi_version (get_model_info (after 5%nat).1.2) = "v200"
  ∧ length (after 5%nat).2 = 1%nat.
Proof. vm_compute. done. Qed.

(** ** The lock *)

Module LockingFacts.
Import Locking.
















(** In that state the second [detect] call cannot step, and still
    cannot after the first has decoded the image and is predicting. *)
Example second_detect_waits :
  step 2 st_example = None
  ∧ (st' ← run [0; 0]%nat st_example; step 2 st') = None.
Proof. split; reflexivity. Qed.


End LockingFacts.


(** ** Reloads and class syncs are independent *)

Lemma load_model_update_class_mapping fs mapping d :
  load_model fs (update_class_mapping mapping d) =
  (update_class_mapping mapping (load_model fs d).1, (load_model fs d).2).
Proof.
  unfold load_model. simpl.
  destruct (fs_exists fs); simpl; [|done].
  destruct (fs_YOLO fs) as [m|]; [|done].
  destruct (predict m _ _ _ _); [|done].
  by destruct (_compute_version fs).
Qed.

(** X1. A class sync and a reload commute: syncing and then loading
    leaves the detector that loading and then syncing leaves, with the
    same answers; in particular a reload, failed or not, keeps the
    overlay, and a sync keeps the model and its version. *)
Theorem sync_and_reload_commute (fs : FileSystem) (request : SyncClassesRequest.t)
    (d : Detector) :
  load_model fs (SyncClasses request d).2 =
    ((SyncClasses request (load_model fs d).1).2, (load_model fs d).2)
  ∧ (SyncClasses request (load_model fs d).1).1 = (SyncClasses request d).1
  ∧ _class_mapping (load_model fs d).1 = _class_mapping d
  ∧ _model (SyncClasses request d).2 = _model d
  ∧ _model_version (SyncClasses request d).2 = _model_version d.
Proof.
  split; [apply load_model_update_class_mapping|].
  split; [done|]. split; [|done].
  unfold load_model. destruct (fs_exists fs); simpl; [|done].
  destruct (fs_YOLO fs) as [m|]; [|done].
  destruct (predict m _ _ _ _); [|done].
  by destruct (_compute_version fs).
Qed.

(** ** What a Detect call answers *)

Lemma keeps_handle_try_except {A} (t : Task A) (h : Py.exn → Task A) :
  keeps_handle t → (∀ e, keeps_handle (h e)) → keeps_handle (try_except t h).
Proof.
  intros Ht Hh s. specialize (Ht s). unfold try_except.
  destruct (t s) as [[a|e] s1]; [done|].
  destruct (Hh e s1) as (-> & -> & ->). done.
Qed.

Lemma keeps_handle_Detect_detections dets : keeps_handle (Detect_detections dets).
Proof.
  induction dets as [|det dets IH]; cbn [Detect_detections]; [auto with keeps_handle|].
  apply keeps_handle_bind; [|intros r; repeat keeps_handle_step; exact IH].
  unfold Detect_detection. repeat keeps_handle_step.
Qed.

Lemma keeps_handle_detect o image_bytes ct it : keeps_handle (detect o image_bytes ct it).
Proof.
  unfold detect. repeat keeps_handle_step. apply keeps_handle_detect_boxes.
Qed.

Lemma keeps_handle_Detect o uuid4 request context :
  keeps_handle (Detect o uuid4 request context).
Proof.
  unfold Detect. apply keeps_handle_bind; [apply keeps_handle_self|intros d].
  destruct (negb (model_loaded d)); [apply keeps_handle_ret|].
  apply keeps_handle_try_except; [|intros e; apply keeps_handle_ret].
  apply keeps_handle_bind; [apply keeps_handle_detect|intros r].
  apply keeps_handle_bind; [apply keeps_handle_Detect_detections|intros dets].
  apply keeps_handle_ret.
Qed.

(** X2. [Detect] never raises, whatever the image, the model and the
    concurrent updates do.  It returns the context it was given, or the
    empty response with the fault [UNAVAILABLE] "Model not loaded", or
    the empty response with the fault [INTERNAL]; and it leaves the
    detector's model and version as they were. *)
Theorem Detect_never_raises (o : Outside) (uuid4 : string)
    (request : DetectRequest.t) (context : ServicerContext) (s : Shared) :
  ∃ response context' s',
    Detect o uuid4 request context s = (Py.Ok (response, context'), s')
    ∧ (context' = context
       ∨ (response = DetectResponse.empty
          ∧ context' = {| code := UNAVAILABLE; details := "Model not loaded" |})
       ∨ (response = DetectResponse.empty ∧ code context' = INTERNAL))
    ∧ _model (detector s') = _model (detector s)
    ∧ _model_version (detector s') = _model_version (detector s).
Proof.
  pose proof (keeps_handle_Detect o uuid4 request context s) as (Hm & Hv & _).
  revert Hm Hv. unfold Detect. rewrite self_bind.
  destruct (negb (model_loaded (detector s))).
  { intros _ _. eexists _, _, _. split; [reflexivity|]. split; [|done].
    right. left. done. }
  unfold try_except.
  destruct ((detect o (DetectRequest.image request) _ _ ≫= _) s)
    as [[[response context']|e] s'] eqn:H; intros Hm Hv.
  - exists response, context', s'. split; [done|]. split; [|done]. left.
    revert H. unfold mbind, Task_bind.
    destruct (detect _ _ _ _ s) as [[res|?] s1]; [|done].
    destruct (Detect_detections _ s1) as [[dets|?] s2]; [|done].
    by intros [= <- <- <-].
  - eexists _, _, _. split; [reflexivity|]. split; [|done]. right. right. done.
Qed.

(** X3. A loaded detector answers an image that does not decode with
    the empty response and the fault [INTERNAL], whose details are the
    decoder's message; nothing is changed. *)
Theorem Detect_decode_failure (o : Outside) (uuid4 : string)
    (request : DetectRequest.t) (context : ServicerContext) (s : Shared)
    (model : YOLO) (e : Py.exn) :
  _model (detector s) = Some model →
  Image_open o (DetectRequest.image request) = Py.Raise e →
  Detect o uuid4 request context s =
  (Py.Ok (DetectResponse.empty, {| code := INTERNAL; details := Py.str e |}), s).
Proof.
  intros Hm Hi. unfold Detect. rewrite self_bind.
  unfold model_loaded. rewrite Hm. simpl. unfold try_except.
  erewrite bind_Raise; [done|].
  unfold detect. rewrite self_bind, Hm.
  erewrite bind_Raise; [done|]. unfold lift. by rewrite Hi.
Qed.

(** The loaded detector of the fixtures and a decoder that rejects the
    image. *)
Lemma Detect_decode_failure_witness :
  let o := {| Image_open := λ _, Py.Raise (Py.Exception "cannot identify image file");
              perf_counter_0 := 0%float; perf_counter_1 := 0%float |} in
  let s := alone (reloads [Fixtures.fs_v100] (Detector_init Fixtures.model_config)) in
  Detect o Fixtures.uuid4 Fixtures.request Fixtures.context s =
  (Py.Ok (DetectResponse.empty,
          {| code := INTERNAL; details := "cannot identify image file" |}), s).
Proof.
  intros o s.
  apply (Detect_decode_failure o Fixtures.uuid4 Fixtures.request Fixtures.context s
           Fixtures.mock_model (Py.Exception "cannot identify image file")).
  - reflexivity.
  - reflexivity.
Defined.

(** X4. A loaded detector whose model raises in [predict] answers with
    the empty response and the fault [INTERNAL] carrying the model's
    message; the thresholds of the failing call are those of the
    request when greater than zero, the defaults otherwise. *)
Theorem Detect_inference_failure (o : Outside) (uuid4 : string)
    (request : DetectRequest.t) (context : ServicerContext) (s : Shared)
    (model : YOLO) (image : Image) (e : Py.exn) :
  _model (detector s) = Some model →
  Image_open o (DetectRequest.image request) = Py.Ok image →
  predict model (PILImage (rgb image))
    (Some (threshold_used (DetectRequest.confidence_threshold request)
                          (default_confidence (config (detector s)))))
    (Some (threshold_used (DetectRequest.iou_threshold request)
                          (default_iou (config (detector s)))))
    (Some (input_size (config (detector s)))) = Py.Raise e →
  Detect o uuid4 request context s =
  (Py.Ok (DetectResponse.empty, {| code := INTERNAL; details := Py.str e |}), s).
Proof.
  intros Hm Hi Hp. unfold Detect. rewrite self_bind.
  unfold model_loaded. rewrite Hm. simpl. unfold try_except.
  erewrite bind_Raise; [done|].
  unfold detect. rewrite self_bind, Hm.
  erewrite bind_Ok by (unfold lift; by rewrite Hi).
  fold (rgb image). destruct (size_ (rgb image)) as [w h].
  erewrite bind_Raise; [done|].
  unfold lift. rewrite !or_default_gt0.
  fold (threshold_used (DetectRequest.confidence_threshold request)
          (default_confidence (config (detector s)))).
  fold (threshold_used (DetectRequest.iou_threshold request)
          (default_iou (config (detector s)))).
  by rewrite Hp.
Qed.

(** A model whose [predict] runs out of memory. *)
Lemma Detect_inference_failure_witness :
  let model := {| names := [(0, "cola")];
                  predict := λ _ _ _ _, Py.Raise (Py.RuntimeError "CUDA out of memory") |} in
  let s := alone (set_model model (Detector_init Fixtures.model_config)) in
  Detect Fixtures.outside Fixtures.uuid4 Fixtures.request Fixtures.context s =
  (Py.Ok (DetectResponse.empty,
          {| code := INTERNAL; details := "CUDA out of memory" |}), s).
Proof.
  intros model s.
  apply (Detect_inference_failure Fixtures.outside Fixtures.uuid4 Fixtures.request
           Fixtures.context s model {| mode := "RGB"; size_ := (640, 480) |}
           (Py.RuntimeError "CUDA out of memory")).
  - reflexivity.
  - reflexivity.
  - reflexivity.
Defined.

(** X5. When [predict] finds nothing (no result, a result without
    boxes, or an empty list of boxes), a loaded detector answers
    without fault and without detections, whatever the size of the
    image: the response carries the detector's version, the elapsed
    time in milliseconds and the first eight characters of the uuid. *)
Theorem Detect_no_boxes (o : Outside) (uuid4 : string)
    (request : DetectRequest.t) (context : ServicerContext) (s : Shared)
    (model : YOLO) (image : Image) (results : list Results) :
  _model (detector s) = Some model →
  Image_open o (DetectRequest.image request) = Py.Ok image →
  predict model (PILImage (rgb image))
    (Some (threshold_used (DetectRequest.confidence_threshold request)
                          (default_confidence (config (detector s)))))
    (Some (threshold_used (DetectRequest.iou_threshold request)
                          (default_iou (config (detector s)))))
    (Some (input_size (config (detector s)))) = Py.Ok results →
  no_boxes results →
  Detect o uuid4 request context s =
  (Py.Ok ({| DetectResponse.detections := [];
             DetectResponse.model_version := _model_version (detector s);
             DetectResponse.inference_time_ms :=
               ((perf_counter_1 o - perf_counter_0 o) * 1000)%float;
             DetectResponse.request_id := Py.take 8 uuid4 |}, context), s).
Proof.
  intros Hm Hi Hp Hn. unfold Detect. rewrite self_bind.
  unfold model_loaded. rewrite Hm. simpl. unfold try_except.
  erewrite bind_Ok; cycle 1.
  { unfold detect. rewrite self_bind, Hm.
    erewrite bind_Ok by (unfold lift; by rewrite Hi).
    fold (rgb image). destruct (size_ (rgb image)) as [w h].
    erewrite bind_Ok; cycle 1.
    { unfold lift. rewrite !or_default_gt0.
      fold (threshold_used (DetectRequest.confidence_threshold request)
              (default_confidence (config (detector s)))).
      fold (threshold_used (DetectRequest.iou_threshold request)
              (default_iou (config (detector s)))).
      by rewrite Hp. }
    cbv beta iota.
    assert (match results with
            | [] => mret []
            | result :: _ =>
                match boxes result with
                | Some bs => detect_boxes w h bs
                | None => mret []
                end
            end s = (Py.Ok [], s)) as Hd.
    { destruct results as [|result ?]; [done|].
      destruct Hn as [-> | ->]; done. }
    erewrite bind_Ok by exact Hd. rewrite self_bind. reflexivity. }
  done.
Qed.

(** A model that returns a result without boxes, on an image of size
    zero and with an update of the overlay pending. *)
Lemma Detect_no_boxes_witness :
  let model := {| names := [(0, "cola")];
                  predict := λ _ _ _ _, Py.Ok [ {| boxes := None |} ] |} in
  let o := {| Image_open := λ _, Py.Ok {| mode := "L"; size_ := (0, 0) |};
              perf_counter_0 := 1%float; perf_counter_1 := 1.25%float |} in
  let s := {| detector := set_model_version "v7" (set_model model
                            (Detector_init Fixtures.model_config));
              pending := [Some Fixtures.mapping_new] |} in
  Detect o Fixtures.uuid4 Fixtures.request Fixtures.context s =
  (Py.Ok ({| DetectResponse.detections := [];
             DetectResponse.model_version := "v7";
             DetectResponse.inference_time_ms := 250%float;
             DetectResponse.request_id := "0f8fad5b" |}, Fixtures.context), s).
Proof.
  intros model o s.
  apply (Detect_no_boxes o Fixtures.uuid4 Fixtures.request Fixtures.context s model
           {| mode := "L"; size_ := (0, 0) |} [ {| boxes := None |} ]).
  - reflexivity.
  - reflexivity.
  - reflexivity.
  - left. reflexivity.
Defined.

(** X6. The membership test and the lookup on the overlay are two
    loads of the attribute.  When an update that no longer has the
    class of the first box lands between them, the lookup raises
    [KeyError]: the call answers with the empty response and the fault
    [INTERNAL], whose details are the class id. *)
Theorem Detect_overlay_key_vanishes (o : Outside) (uuid4 : string)
    (request : DetectRequest.t) (context : ServicerContext) (d : Detector)
    (model : YOLO) (image : Image) (result : Results) (rest : list Results)
    (b : Box) (bs : list Box) (k : Z) (mapping : gmap Z (string * string))
    (later : list (option (gmap Z (string * string)))) :
  _model d = Some model →
  Image_open o (DetectRequest.image request) = Py.Ok image →
  (size_ image).1 ≠ 0 → (size_ image).2 ≠ 0 →
  predict model (PILImage (rgb image))
    (Some (threshold_used (DetectRequest.confidence_threshold request)
                          (default_confidence (config d))))
    (Some (threshold_used (DetectRequest.iou_threshold request)
                          (default_iou (config d))))
    (Some (input_size (config d))) = Py.Ok (result :: rest) →
  boxes result = Some (b :: bs) →
  Py.int (cls b) = Py.Ok k →
  is_Some (_class_mapping d !! k) →
  mapping !! k = None →
  Detect o uuid4 request context
    {| detector := d; pending := None :: Some mapping :: later |} =
  (Py.Ok (DetectResponse.empty, {| code := INTERNAL; details := pretty k |}),
   {| detector := update_class_mapping mapping d; pending := later |}).
Proof.
  intros Hm Hi Hw Hh Hp Hb Hk Hin Hout.
  set (s := {| detector := d; pending := None :: Some mapping :: later |}).
  set (s' := {| detector := update_class_mapping mapping d; pending := later |}).
  assert (∀ w h, w ≠ 0 → h ≠ 0 →
            detect_box w h b s = (Py.Raise (Py.KeyError k), s')) as Hbox.
  { intros w h Hw' Hh'. unfold detect_box. destruct (xyxy b) as [[[x1 y1] x2] y2].
    rewrite Hk, !truediv_Ok by done.
    unfold mbind, Task_bind, lift, load_class_mapping. simpl.
    rewrite decide_True by done. simpl. by rewrite Hout. }
  assert (∀ ct it,
            Py.or_default ct (default_confidence (config d)) =
              threshold_used (DetectRequest.confidence_threshold request)
                (default_confidence (config d)) →
            Py.or_default it (default_iou (config d)) =
              threshold_used (DetectRequest.iou_threshold request)
                (default_iou (config d)) →
            detect o (DetectRequest.image request) ct it s =
            (Py.Raise (Py.KeyError k), s')) as Hdet.
  { intros ct it Hc Hiou. unfold detect. rewrite self_bind. simpl. rewrite Hm.
    erewrite bind_Ok by (unfold lift; by rewrite Hi).
    fold (rgb image).
    assert (size_ (rgb image) = size_ image) as Hs by (unfold rgb; by case_decide).
    rewrite Hs. destruct (size_ image) as [w h]. simpl in Hw, Hh.
    erewrite bind_Ok by (unfold lift; by rewrite Hc, Hiou, Hp).
    cbv beta iota. rewrite Hb.
    apply bind_Raise. cbn [detect_boxes]. apply bind_Raise. by apply Hbox. }
  unfold Detect. rewrite self_bind.
  unfold model_loaded. simpl. rewrite Hm. simpl. unfold try_except.
  erewrite bind_Raise by (apply Hdet; apply or_default_gt0).
  done.
Qed.

(** The overlay has class 0; the empty overlay is installed between
    the test and the lookup for the one box of class 0. *)
Lemma Detect_overlay_key_vanishes_witness :
  let d := update_class_mapping Fixtures.mapping_old
             (reloads [Fixtures.fs_v100] (Detector_init Fixtures.model_config)) in
  Detect Fixtures.outside Fixtures.uuid4 Fixtures.request Fixtures.context
    {| detector := d; pending := None :: Some ∅ :: [] |} =
  (Py.Ok (DetectResponse.empty, {| code := INTERNAL; details := pretty 0 |}),
   {| detector := update_class_mapping ∅ d; pending := [] |}).
Proof.
  intros d.
  apply (Detect_overlay_key_vanishes Fixtures.outside Fixtures.uuid4 Fixtures.request
           Fixtures.context d Fixtures.mock_model {| mode := "RGB"; size_ := (640, 480) |}
           {| boxes := Some [ {| cls := 0%float; conf := 0.95%float;
                                 xyxy := (100, 100, 200, 200)%float |} ] |} []
           {| cls := 0%float; conf := 0.95%float; xyxy := (100, 100, 200, 200)%float |}
           [] 0 ∅ []).
  - reflexivity.
  - reflexivity.
  - simpl. lia.
  - simpl. lia.
  - reflexivity.
  - reflexivity.
  - vm_compute. reflexivity.
  - vm_compute. eauto.
  - reflexivity.
Defined.

(** X7. For a request whose image decodes and on which [predict]
    returns boxes, the detections come in the order of the boxes, each
    with the confidence of its box unchanged and with the corners of
    its box divided by the width (x) and the height (y) of the
    original image. *)
Theorem Detect_boxes_normalized
    (o : Outside) (uuid4 : string) (request : DetectRequest.t)
    (context : ServicerContext) (d : Detector) (model : YOLO) (image : Image)
    (result : Results) (rest : list Results) (bs : list Box) :
  _model d = Some model →
  Image_open o (DetectRequest.image request) = Py.Ok image →
  (size_ image).1 ≠ 0 → (size_ image).2 ≠ 0 →
  predict model (PILImage (rgb image))
    (Some (threshold_used (DetectRequest.confidence_threshold request)
                          (default_confidence (config d))))
    (Some (threshold_used (DetectRequest.iou_threshold request)
                          (default_iou (config d))))
    (Some (input_size (config d))) = Py.Ok (result :: rest) →
  boxes result = Some bs →
  Forall has_class_id bs →
  ∃ response,
    Detect o uuid4 request context (alone d) = (Py.Ok (response, context), alone d)
    ∧ Forall2
        (λ b det,
           let '(x1, y1, x2, y2) := xyxy b in
           let w := Py.float_of_int (size_ image).1 in
           let h := Py.float_of_int (size_ image).2 in
           Detection.confidence det = conf b
           ∧ Detection.bbox det =
             {| BoundingBox.x1 := (x1 / w)%float; BoundingBox.y1 := (y1 / h)%float;
                BoundingBox.x2 := (x2 / w)%float; BoundingBox.y2 := (y2 / h)%float |})
        bs (DetectResponse.detections response).
Proof.
  intros Hm Hi Hw Hh Hp Hb Hbs.
  eexists. split; [by eapply Detect_alone|].
  simpl. rewrite <- list_fmap_compose.
  apply Forall2_fmap_r, Forall_Forall2_diag, Forall_forall.
  intros b _. unfold compose, Detection_of, detection_result.
  by destruct (xyxy b) as [[[x1 y1] x2] y2].
Qed.

(** The box (100, 100, 200, 200) on the 640x480 image of the tests. *)
Lemma Detect_boxes_normalized_witness :
  let d := reloads [Fixtures.fs_v100] (Detector_init Fixtures.model_config) in
  ∃ response,
    Detect Fixtures.outside Fixtures.uuid4 Fixtures.request Fixtures.context (alone d)
      = (Py.Ok (response, Fixtures.context), alone d)
    ∧ Forall2
        (λ b det,
           let '(x1, y1, x2, y2) := xyxy b in
           let w := Py.float_of_int 640 in
           let h := Py.float_of_int 480 in
           Detection.confidence det = conf b
           ∧ Detection.bbox det =
             {| BoundingBox.x1 := (x1 / w)%float; BoundingBox.y1 := (y1 / h)%float;
                BoundingBox.x2 := (x2 / w)%float; BoundingBox.y2 := (y2 / h)%float |})
        [ {| cls := 0%float; conf := 0.95%float; xyxy := (100, 100, 200, 200)%float |} ]
        (DetectResponse.detections response).
Proof.
  intros d.
  apply (Detect_boxes_normalized Fixtures.outside Fixtures.uuid4 Fixtures.request
           Fixtures.context d Fixtures.mock_model {| mode := "RGB"; size_ := (640, 480) |}
           {| boxes := Some [ {| cls := 0%float; conf := 0.95%float;
                                 xyxy := (100, 100, 200, 200)%float |} ] |} []).
  - reflexivity.
  - reflexivity.
  - simpl. lia.
  - simpl. lia.
  - reflexivity.
  - reflexivity.
  - constructor; [|constructor]. exists 0. vm_compute. reflexivity.
Defined.

(** X8. A class sync between two [Detect] calls on the same model and
    image does not touch the detections whose class id neither overlay
    has: the two responses list the same class ids in the same order,
    and a detection of a class absent from both overlays is the same
    in both (the model's own name, the empty external id). *)
Theorem Detect_unmapped_ids_unaffected
    (o : Outside) (uuid4 : string) (request : DetectRequest.t)
    (context : ServicerContext) (d : Detector) (m1 m2 : gmap Z (string * string))
    (model : YOLO) (image : Image)
    (result : Results) (rest : list Results) (bs : list Box) :
  _model d = Some model →
  Image_open o (DetectRequest.image request) = Py.Ok image →
  (size_ image).1 ≠ 0 → (size_ image).2 ≠ 0 →
  predict model (PILImage (rgb image))
    (Some (threshold_used (DetectRequest.confidence_threshold request)
                          (default_confidence (config d))))
    (Some (threshold_used (DetectRequest.iou_threshold request)
                          (default_iou (config d))))
    (Some (input_size (config d))) = Py.Ok (result :: rest) →
  boxes result = Some bs →
  Forall has_class_id bs →
  ∃ r1 r2,
    (Detect o uuid4 request context (alone (update_class_mapping m1 d))).1
      = Py.Ok (r1, context)
    ∧ (Detect o uuid4 request context (alone (update_class_mapping m2 d))).1
      = Py.Ok (r2, context)
    ∧ Forall2
        (λ det1 det2,
           Detection.class_id det1 = Detection.class_id det2
           ∧ (m1 !! Detection.class_id det1 = None →
              m2 !! Detection.class_id det1 = None → det1 = det2))
        (DetectResponse.detections r1) (DetectResponse.detections r2).
Proof.
  intros Hm Hi Hw Hh Hp Hb Hbs.
  rewrite (Detect_alone o uuid4 request context (update_class_mapping m1 d)
             model image result rest bs) by done.
  rewrite (Detect_alone o uuid4 request context (update_class_mapping m2 d)
             model image result rest bs) by done.
  eexists _, _. split; [reflexivity|]. split; [reflexivity|].
  - simpl. rewrite <- !list_fmap_compose.
    apply Forall2_fmap, Forall_Forall2_diag, Forall_forall.
    intros b _. unfold compose, Detection_of, detection_result, resolved.
    destruct (xyxy b) as [[[x1 y1] x2] y2]. simpl. split; [done|].
    by intros -> ->.
Qed.

(** Two overlays that both lack class 0, the class of the one box. *)
Lemma Detect_unmapped_ids_unaffected_witness :
  let d := reloads [Fixtures.fs_v100] (Detector_init Fixtures.model_config) in
  let m1 : gmap Z (string * string) := {[ 1 := ("sku-002", "Sprite") ]} in
  let m2 : gmap Z (string * string) := {[ 7 := ("sku-007", "Fanta") ]} in
  ∃ r1 r2,
    (Detect Fixtures.outside Fixtures.uuid4 Fixtures.request Fixtures.context
       (alone (update_class_mapping m1 d))).1 = Py.Ok (r1, Fixtures.context)
    ∧ (Detect Fixtures.outside Fixtures.uuid4 Fixtures.request Fixtures.context
         (alone (update_class_mapping m2 d))).1 = Py.Ok (r2, Fixtures.context)
    ∧ Forall2
        (λ det1 det2,
           Detection.class_id det1 = Detection.class_id det2
           ∧ (m1 !! Detection.class_id det1 = None →
              m2 !! Detection.class_id det1 = None → det1 = det2))
        (DetectResponse.detections r1) (DetectResponse.detections r2).
Proof.
  intros d m1 m2.
  apply (Detect_unmapped_ids_unaffected Fixtures.outside Fixtures.uuid4 Fixtures.request
           Fixtures.context d m1 m2 Fixtures.mock_model
           {| mode := "RGB"; size_ := (640, 480) |}
           {| boxes := Some [ {| cls := 0%float; conf := 0.95%float;
                                 xyxy := (100, 100, 200, 200)%float |} ] |} []
           [ {| cls := 0%float; conf := 0.95%float;
                xyxy := (100, 100, 200, 200)%float |} ]).
  - reflexivity.
  - reflexivity.
  - simpl. lia.
  - simpl. lia.
  - reflexivity.
  - reflexivity.
  - constructor; [|constructor]. exists 0. vm_compute. reflexivity.
Defined.

(** ** What a successful load shows *)

(** X9. After a [load_model] that returns [True], the detector is
    loaded; [GetModelInfo] reports the version ["v<n>"], where [n] is
    the file's mtime truncated to whole seconds, the architecture
    "yolov8" and the class names of the model just loaded, in the
    model's order; and [HealthCheck] reports healthy. *)
Theorem load_model_success_is_visible (fs : FileSystem) (d d' : Detector)
    (start_time now : float) (uptime : Z) :
  load_model fs d = (d', true) →
  Py.int (now - start_time)%float = Py.Ok uptime →
  ∃ model mtime n,
    fs_YOLO fs = Py.Ok model ∧ fs_mtime fs = Py.Ok mtime ∧ Py.int mtime = Py.Ok n
    ∧ model_loaded d' = true
    ∧ class_names d' = (names model).*2
    ∧ ModelInfo.version (GetModelInfo d') = "v" +:+ pretty n
    ∧ ModelInfo.architecture (GetModelInfo d') = "yolov8"
    ∧ ModelInfo.class_names (GetModelInfo d') = (names model).*2
    ∧ HealthCheck start_time now d' =
      Py.Ok {| HealthResponse.healthy := true; HealthResponse.status := "healthy";
               HealthResponse.model_loaded := true;
               HealthResponse.uptime_seconds := uptime |}.
Proof.
  intros Hl Hu. apply load_model_true in Hl as (model & v & Hy & Hv & ->).
  unfold _compute_version in Hv.
  destruct (fs_mtime fs) as [mtime|] eqn:Hmt; [|done]. simpl in Hv.
  destruct (Py.int mtime) as [n|] eqn:Hn; [|done]. simpl in Hv.
  injection Hv as <-.
  exists model, mtime, n. repeat split; try done.
  unfold HealthCheck. by rewrite Hu.
Qed.

(** The first load of the fixtures, mtime 100.5 s. *)
Lemma load_model_success_is_visible_witness :
  let d' := (load_model Fixtures.fs_v100 (Detector_init Fixtures.model_config)).1 in
  ∃ model mtime n,
    fs_YOLO Fixtures.fs_v100 = Py.Ok model
    ∧ fs_mtime Fixtures.fs_v100 = Py.Ok mtime ∧ Py.int mtime = Py.Ok n
    ∧ model_loaded d' = true
    ∧ class_names d' = (names model).*2
    ∧ ModelInfo.version (GetModelInfo d') = "v" +:+ pretty n
    ∧ ModelInfo.architecture (GetModelInfo d') = "yolov8"
    ∧ ModelInfo.class_names (GetModelInfo d') = (names model).*2
    ∧ HealthCheck 10%float 52.5%float d' =
      Py.Ok {| HealthResponse.healthy := true; HealthResponse.status := "healthy";
               HealthResponse.model_loaded := true;
               HealthResponse.uptime_seconds := 42 |}.
Proof.
  intros d'.
  apply (load_model_success_is_visible Fixtures.fs_v100
           (Detector_init Fixtures.model_config) d' 10%float 52.5%float 42).
  - reflexivity.
  - vm_compute. reflexivity.
Defined.

(** X10. The three read-only operations agree on whether a model is
    there: [HealthCheck], when it answers, reports healthy exactly when
    [GetModelInfo] reports the architecture "yolov8", and exactly when
    a [Detect] call given a context without fault does not come back
    [UNAVAILABLE]; its status string and its [model_loaded] flag say
    the same. *)
Theorem health_agrees_with_info_and_detect (d : Detector) (start_time now : float)
    (r : HealthResponse.t) (o : Outside) (uuid4 : string)
    (request : DetectRequest.t) (context : ServicerContext)
    (pending : list (option (gmap Z (string * string)))) :
  HealthCheck start_time now d = Py.Ok r →
  code context = OK →
  (HealthResponse.healthy r = true ↔
     ModelInfo.architecture (GetModelInfo d) = "yolov8")
  ∧ (HealthResponse.healthy r = true ↔
       Detect_code o uuid4 request context {| detector := d; pending := pending |}
         ≠ UNAVAILABLE)
  ∧ HealthResponse.model_loaded r = HealthResponse.healthy r
  ∧ (HealthResponse.status r = "healthy" ↔ HealthResponse.healthy r = true).
Proof.
  intros Hh Hc. unfold HealthCheck in Hh.
  destruct (Py.int _) as [up|]; [|done]. simpl in Hh.
  unfold Detect_code, GetModelInfo, get_model_info. unfold model_loaded in Hh.
  destruct (_model d) as [model|] eqn:Hm; simpl in Hh; injection Hh as <-; simpl.
  - split; [done|]. split; [|done]. split; [|done]. intros _.
    unfold Detect. rewrite self_bind. unfold model_loaded. simpl.
    rewrite Hm. simpl. unfold try_except.
    destruct ((detect _ _ _ _ ≫= _) _) as [[[? ?]|?] ?] eqn:H; simpl; [|done].
    revert H. unfold mbind, Task_bind.
    destruct (detect _ _ _ _ _) as [[res|?] s1]; [|done].
    destruct (Detect_detections _ s1) as [[dets|?] s2]; [|done].
    intros [= <- <- <-]. by rewrite Hc.
  - split; [done|]. split; [|done]. split; [done|]. intros H. exfalso. apply H.
    by rewrite (Detect_unloaded o uuid4 request context
                  {| detector := d; pending := pending |} Hm).
Qed.

(** The loaded detector of the fixtures. *)
Lemma health_agrees_with_info_and_detect_witness :
  let d := (load_model Fixtures.fs_v100 (Detector_init Fixtures.model_config)).1 in
  let r := {| HealthResponse.healthy := true; HealthResponse.status := "healthy";
              HealthResponse.model_loaded := true;
              HealthResponse.uptime_seconds := 42 |} in
  (HealthResponse.healthy r = true ↔
     ModelInfo.architecture (GetModelInfo d) = "yolov8")
  ∧ (HealthResponse.healthy r = true ↔
       Detect_code Fixtures.outside Fixtures.uuid4 Fixtures.request Fixtures.context
         {| detector := d; pending := [] |} ≠ UNAVAILABLE)
  ∧ HealthResponse.model_loaded r = HealthResponse.healthy r
  ∧ (HealthResponse.status r = "healthy" ↔ HealthResponse.healthy r = true).
Proof.
  intros d r.
  apply (health_agrees_with_info_and_detect d 10%float 52.5%float r Fixtures.outside
           Fixtures.uuid4 Fixtures.request Fixtures.context []).
  - vm_compute. reflexivity.
  - reflexivity.
Defined.

(** ** Versions *)

(** X11. The version string tells whole seconds apart and nothing
    finer: two files get the same version exactly when their mtimes
    truncate to the same number of seconds. *)
Theorem version_identifies_whole_seconds (fs1 fs2 : FileSystem) (m1 m2 : float)
    (n1 n2 : Z) :
  fs_mtime fs1 = Py.Ok m1 → Py.int m1 = Py.Ok n1 →
  fs_mtime fs2 = Py.Ok m2 → Py.int m2 = Py.Ok n2 →
  (_compute_version fs1 = _compute_version fs2 ↔ n1 = n2).
Proof.
  intros H1 Hn1 H2 Hn2. unfold _compute_version.
  rewrite H1, H2. simpl. rewrite Hn1, Hn2. simpl. split.
  - intros [= H]. by apply (inj pretty).
  - by intros ->.
Qed.

(** Two files within the same second: 100.5 s and 100.99 s. *)
Lemma version_identifies_whole_seconds_witness :
  _compute_version Fixtures.fs_v100 =
    _compute_version {| fs_exists := true; fs_YOLO := Py.Ok Fixtures.mock_model_2;
                        fs_mtime := Py.Ok 100.99%float |}
  ↔ 100 = 100.
Proof.
  apply (version_identifies_whole_seconds Fixtures.fs_v100
           {| fs_exists := true; fs_YOLO := Py.Ok Fixtures.mock_model_2;
              fs_mtime := Py.Ok 100.99%float |} 100.5%float 100.99%float 100 100).
  - reflexivity.
  - vm_compute. reflexivity.
  - reflexivity.
  - vm_compute. reflexivity.
Defined.

(** ** More on the watcher *)

Lemma SFcompare_antisym x y :
  SFcompare y x = option_map CompOpp (SFcompare x y).
Proof.
  destruct x as [sx|sx| |sx mx ex], y as [sy|sy| |sy my ey]; simpl;
    try destruct sx; try destruct sy; try reflexivity; simpl.
  all: rewrite (Z.compare_antisym ex ey); destruct (ex ?= ey)%Z; simpl;
    try reflexivity.
  all: pose proof (Pos.compare_cont_antisym mx my Eq) as H; simpl in H;
    rewrite <- H; by rewrite ?CompOpp_involutive.
Qed.

(** A float that is at most [l] is not greater than [l]. *)
Lemma leb_not_gt c l : PrimFloat.leb c l = true → PrimFloat.ltb l c = false.
Proof.
  rewrite FloatAxioms.leb_spec, FloatAxioms.ltb_spec.
  unfold SFleb, SFltb. rewrite (SFcompare_antisym (Prim2SF c) (Prim2SF l)).
  by destruct (SFcompare (Prim2SF c) (Prim2SF l)) as [[]|].
Qed.

Section WatcherMore.

Context {W E : Type}.
Variable on_change : E → W → W * Py.result bool.

(** The helper behind the scenarios below: polls without news, one
    poll that finds a newer file, then polls that find it unchanged or
    missing, make exactly one call. *)
Lemma _watch_loop_one_change w s m e before after :
  _running w = true →
  changed (_last_mtime w) m = true →
  Forall (λ t, no_news (_last_mtime w) t.1) before →
  Forall (λ t, _get_mtime t.1 = Py.Ok None ∨ _get_mtime t.1 = Py.Ok (Some m)) after →
  _watch_loop on_change (before ++ (Py.Ok m, e) :: after) (w, s, []) =
  ((set_last_mtime (Some m) w, (on_change e s).1, [e]), Py.Ok ()).
Proof.
  intros Hr Hm Hb Ha.
  induction Hb as [|[stat e'] before H _ IH]; cbn [app _watch_loop fst]; rewrite Hr.
  - rewrite watch_iteration_news by done.
    apply _watch_loop_no_news.
    eapply Forall_impl; [exact Ha|]. intros t. apply no_news_recorded.
  - by rewrite watch_iteration_no_news.
Qed.

(** After [stop], the loop does nothing more, whatever happens to
    the file: no call, no change of the mtime on record; and a second
    [stop] changes nothing. *)
Lemma stop_ends_polling (ticks : list (Py.result float * E))
    (w : ModelWatcher) (s : W) (calls : list E) :
  _watch_loop on_change ticks (stop w, s, calls) = ((stop w, s, calls), Py.Ok ())
  ∧ stop (stop w) = stop w.
Proof. split; [by apply _watch_loop_stopped|done]. Qed.

(** X13. A file whose mtime is not greater than the one on record is
    never reloaded: putting back an older copy of the model, or
    touching it back to the same time, goes unnoticed however long the
    watcher polls, and whatever [stat()] raises in between. *)
Theorem older_file_is_not_reloaded (ticks : list (Py.result float * E))
    (w : ModelWatcher) (s : W) (calls : list E) (recorded : float) :
  _last_mtime w = Some recorded →
  Forall (λ t, match t.1 with
               | Py.Ok current_mtime => PrimFloat.leb current_mtime recorded = true
               | Py.Raise _ => True
               end) ticks →
  (_watch_loop on_change ticks (w, s, calls)).1 = (w, s, calls).
Proof.
  intros Hl Ht. apply _watch_loop_no_call. rewrite Hl.
  eapply Forall_impl; [exact Ht|]. intros [stat e]. unfold no_call. simpl.
  destruct stat; [|done]. apply leb_not_gt.
Qed.

(** X14. [start] puts the file's mtime on record and returns, so that
    a watcher started on a file that is there does not call back while
    the file stays as it is (or goes missing, or cannot be read); and
    starting a watcher that is running changes nothing, whatever the
    file's mtime then. *)
Theorem start_records_the_file (ticks : list (Py.result float * E))
    (w : ModelWatcher) (s : W) (m : float) (stat' : Py.result float) :
  _running w = false →
  Forall (λ t, match t.1 with
               | Py.Ok current_mtime => current_mtime = m
               | Py.Raise _ => True
               end) ticks →
  let w' := (start (Py.Ok m) w).1 in
  (start (Py.Ok m) w).2 = Py.Ok ()
  ∧ _last_mtime w' = Some m
  ∧ (_watch_loop on_change ticks (w', s, [])).1 = (w', s, [])
  ∧ start stat' w' = (w', Py.Ok ()).
Proof.
  intros Hr Ht. unfold start. rewrite Hr. simpl. repeat split.
  apply _watch_loop_no_call. eapply Forall_impl; [exact Ht|].
  intros [stat e]. unfold no_call. simpl. destruct stat as [c|]; [|done].
  intros ->. apply ltb_irrefl.
Qed.

End WatcherMore.

(** 200 s is on record; the file is found at 100.5 s and at 200 s. *)
Lemma older_file_is_not_reloaded_witness :
  let w := (start (Py.Ok 200%float) (ModelWatcher_init 1%float)).1 in
  let d := Detector_init Fixtures.model_config in
  (_watch_loop reload_callback
     [(Py.Ok 100.5%float, Fixtures.fs_v100); (Py.Ok 200%float, Fixtures.fs_v100)]
     (w, d, [])).1 = (w, d, []).
Proof.
  intros w d.
  apply (older_file_is_not_reloaded reload_callback
           [(Py.Ok 100.5%float, Fixtures.fs_v100); (Py.Ok 200%float, Fixtures.fs_v100)]
           w d [] 200%float).
  - reflexivity.
  - repeat (apply Forall_cons; split; [reflexivity|]). apply Forall_nil_2.
Defined.

(** A watcher started on a file at 100.5 s, which is then found
    unchanged, missing, and unchanged again. *)
Lemma start_records_the_file_witness :
  let w := ModelWatcher_init 1%float in
  let d := Detector_init Fixtures.model_config in
  let ticks := [(Py.Ok 100.5%float, Fixtures.fs_v100);
                (Py.Raise (Py.FileNotFoundError "models/test.pt"), Fixtures.fs_missing);
                (Py.Ok 100.5%float, Fixtures.fs_v100)] in
  let w' := (start (Py.Ok 100.5%float) w).1 in
  (start (Py.Ok 100.5%float) w).2 = Py.Ok ()
  ∧ _last_mtime w' = Some 100.5%float
  ∧ (_watch_loop reload_callback ticks (w', d, [])).1 = (w', d, [])
  ∧ start (Py.Ok 300%float) w' = (w', Py.Ok ()).
Proof.
  intros w d ticks.
  apply (start_records_the_file reload_callback ticks w d 100.5%float).
  - reflexivity.
  - repeat (apply Forall_cons; split; [simpl; auto|]). apply Forall_nil_2.
Defined.

(** ** Start-up and hot reload *)

(** X12. A poll whose [stat()] raises anything but
    [FileNotFoundError] (the directory has become unreadable, say) is
    the end of the watcher thread: the loads made are those of the
    polls before it, and the detector and the mtime on record are as
    those polls left them, whatever the file does afterwards.  The
    watcher stays marked as running, so that neither [start] nor
    [start_hot_reload] makes a new thread: hot reload is off until
    [stop_hot_reload] has dropped the watcher. *)
Theorem stat_error_ends_the_watcher (h : Hot) (w : ModelWatcher) (e : Py.exn)
    (fs : FileSystem) (before after more : list (Py.result float * FileSystem))
    (stat : Py.result float) (m : float) :
  _watcher h = Some w → _running w = true → _thread w = Some true →
  (∀ msg, e ≠ Py.FileNotFoundError msg) →
  Forall (λ t, ∃ current_mtime, _get_mtime t.1 = Py.Ok current_mtime) before →
  let h' := (polls (before ++ (Py.Raise e, fs) :: after) h).1 in
  polls (before ++ (Py.Raise e, fs) :: after) h =
    (thread_died (polls before h).1, (polls before h).2)
  ∧ polls more h' = (h', [])
  ∧ start_hot_reload stat h' = (h', Py.Ok ())
  ∧ (∃ w', _watcher h' = Some w' ∧ _running w' = true
           ∧ start stat w' = (w', Py.Ok ()))
  ∧ (_thread <$> _watcher (start_hot_reload (Py.Ok m) (stop_hot_reload h')).1)
    = Some (Some true).
Proof.
  intros Hw Hr Ht He Hb h'.
  assert (polls (before ++ (Py.Raise e, fs) :: after) h =
          (thread_died (polls before h).1, (polls before h).2)) as Hp.
  { unfold polls. rewrite Hw, Ht.
    pose proof (_watch_loop_Ok reload_callback before (w, this h, []) Hb) as Hok.
    pose proof (_watch_loop_running reload_callback before (w, this h, [])) as Hrun.
    destruct (_watch_loop reload_callback before (w, this h, []))
      as [[[w1 d1] calls1] r1] eqn:H1.
    simpl in Hok, Hrun. subst r1.
    rewrite (_watch_loop_app reload_callback _ _ _ _ H1).
    rewrite _watch_loop_raise by (simpl; congruence || done). done. }
  assert (∃ w', _watcher h' = Some w' ∧ _running w' = true
                ∧ _thread w' = Some false) as (w' & Hw' & Hr' & Ht').
  { unfold h'. rewrite Hp. unfold polls. rewrite Hw, Ht.
    pose proof (_watch_loop_running reload_callback before (w, this h, [])) as Hrun.
    destruct (_watch_loop reload_callback before (w, this h, []))
      as [[[w1 d1] calls1] r1].
    simpl in Hrun. exists (set_thread (Some false) match r1 with
                                       | Py.Ok _ => w1
                                       | Py.Raise _ => set_thread (Some false) w1
                                       end).
    simpl. split; [done|]. split; [|done]. destruct r1; simpl; congruence. }
  split; [exact Hp|]. split; [|split; [|split]].
  - unfold polls. by rewrite Hw', Ht'.
  - unfold start_hot_reload. by rewrite Hw'.
  - exists w'. split; [done|]. split; [done|]. unfold start. by rewrite Hr'.
  - unfold stop_hot_reload, start_hot_reload. rewrite Hw'. done.
Qed.

(** A served detector whose file is found unchanged, then cannot be
    read for lack of permission; it is replaced afterwards, to no
    effect. *)
Lemma stat_error_ends_the_watcher_witness :
  let h := {| this := (load_model Fixtures.fs_v100
                         (Detector_init Fixtures.model_config)).1;
              _watcher := Some (start (Py.Ok 100.5%float)
                                  (ModelWatcher_init 1%float)).1 |} in
  let ticks := ([(Py.Ok 100.5%float, Fixtures.fs_v100)] ++
                (Py.Raise (Py.PermissionError "[Errno 13] Permission denied: 'models/test.pt'"),
                 Fixtures.fs_v100) ::
                [(Py.Ok 200%float, Fixtures.fs_v100)])%list in
  let h' := (polls ticks h).1 in
  polls ticks h =
    (thread_died (polls [(Py.Ok 100.5%float, Fixtures.fs_v100)] h).1,
     (polls [(Py.Ok 100.5%float, Fixtures.fs_v100)] h).2)
  ∧ polls [(Py.Ok 300%float, Fixtures.fs_v100)] h' = (h', [])
  ∧ start_hot_reload (Py.Ok 300%float) h' = (h', Py.Ok ())
  ∧ (∃ w', _watcher h' = Some w' ∧ _running w' = true
           ∧ start (Py.Ok 300%float) w' = (w', Py.Ok ()))
  ∧ (_thread <$> _watcher (start_hot_reload (Py.Ok 300%float) (stop_hot_reload h')).1)
    = Some (Some true).
Proof.
  intros h ticks.
  apply (stat_error_ends_the_watcher h
           (start (Py.Ok 100.5%float) (ModelWatcher_init 1%float)).1
           (Py.PermissionError "[Errno 13] Permission denied: 'models/test.pt'")
           Fixtures.fs_v100 [(Py.Ok 100.5%float, Fixtures.fs_v100)]
           [(Py.Ok 200%float, Fixtures.fs_v100)]
           [(Py.Ok 300%float, Fixtures.fs_v100)] (Py.Ok 300%float) 300%float).
  - reflexivity.
  - reflexivity.
  - reflexivity.
  - intros msg H. discriminate H.
  - apply Forall_cons. split; [eexists; reflexivity|apply Forall_nil_2].
Defined.

(** X15. The model file is absent when the server starts.  The
    detector starts unloaded with a running watcher and no mtime on
    record; the first poll that finds a file loads it, and when that
    load succeeds the detector is loaded from then on, with exactly one
    load made however long the watcher goes on polling the unchanged
    file. *)
Theorem model_deployed_after_startup (c : ModelConfig) (fs0 fs : FileSystem)
    (msg : string) (m : float) (before after : list (Py.result float * FileSystem)) :
  Forall (λ t, _get_mtime t.1 = Py.Ok None) before →
  Forall (λ t, _get_mtime t.1 = Py.Ok None ∨ _get_mtime t.1 = Py.Ok (Some m)) after →
  (load_model fs (Detector_init c)).2 = true →
  ∃ h, serve c false fs0 (Py.Raise (Py.FileNotFoundError msg)) = Py.Ok h
  ∧ let '(h', loads) := polls (before ++ (Py.Ok m, fs) :: after) h in
    model_loaded (this h) = false
    ∧ loads = [fs]
    ∧ this h' = (load_model fs (Detector_init c)).1
    ∧ model_loaded (this h') = true
    ∧ (_last_mtime <$> _watcher h') = Some (Some m).
Proof.
  intros Hb Ha Hl. eexists. split; [reflexivity|].
  unfold polls. simpl.
  rewrite (_watch_loop_one_change reload_callback); try done.
  - simpl. unfold reload_callback.
    destruct (load_model fs (Detector_init c)) as [d' ok] eqn:Hd.
    simpl in Hl. subst ok. simpl. repeat split; try done.
    apply load_model_true in Hd as (model & v & _ & _ & ->). done.
  - eapply Forall_impl; [exact Hb|]. intros t Ht. unfold no_news. by rewrite Ht.
Qed.

(** The file is missing at start-up and at the first poll, and is
    there, loadable, from the second poll on. *)
Lemma model_deployed_after_startup_witness :
  ∃ h, serve Fixtures.model_config false Fixtures.fs_missing
         (Py.Raise (Py.FileNotFoundError "models/test.pt")) = Py.Ok h
  ∧ let '(h', loads) :=
      polls ([(Py.Raise (Py.FileNotFoundError "models/test.pt"), Fixtures.fs_missing)] ++
             (Py.Ok 100.5%float, Fixtures.fs_v100) ::
             [(Py.Ok 100.5%float, Fixtures.fs_v100)]) h in
    model_loaded (this h) = false
    ∧ loads = [Fixtures.fs_v100]
    ∧ this h' = (load_model Fixtures.fs_v100 (Detector_init Fixtures.model_config)).1
    ∧ model_loaded (this h') = true
    ∧ (_last_mtime <$> _watcher h') = Some (Some 100.5%float).
Proof.
  apply (model_deployed_after_startup Fixtures.model_config Fixtures.fs_missing
           Fixtures.fs_v100 "models/test.pt" 100.5%float
           [(Py.Raise (Py.FileNotFoundError "models/test.pt"), Fixtures.fs_missing)]
           [(Py.Ok 100.5%float, Fixtures.fs_v100)]).
  - apply Forall_cons. split; [reflexivity|apply Forall_nil_2].
  - apply Forall_cons. split; [right; reflexivity|apply Forall_nil_2].
  - reflexivity.
Defined.

(** When [stat()] fails for another reason as the watcher is started,
    the exception leaves [start], [start_hot_reload] and [serve]: the
    server does not come up. *)
Example serve_stat_error :
  serve Fixtures.model_config false Fixtures.fs_missing
    (Py.Raise (Py.PermissionError "[Errno 13] Permission denied: 'models/test.pt'"))
  = Py.Raise (Py.PermissionError "[Errno 13] Permission denied: 'models/test.pt'").
Proof. reflexivity. Qed.

(** X16. The model file is there when the server starts, but the
    initial load fails (in [YOLO(...)] or in the warm-up).  The watcher
    starts with the file's mtime on record, so the load is not tried
    again for as long as the file is not modified: the detector stays
    unloaded, no load is made and the mtime on record stays, however
    many polls go by and whatever [stat()] raises in them; when no
    poll raises but for a missing file, nothing at all has changed. *)
Theorem failed_initial_load_is_not_retried (c : ModelConfig) (fs : FileSystem)
    (m : float) (ticks : list (Py.result float * FileSystem)) :
  fails_before_install (input_size c) fs →
  Forall (λ t, no_call (Some m) t.1) ticks →
  ∃ h, serve c true fs (Py.Ok m) = Py.Ok h
  ∧ (polls ticks h).2 = []
  ∧ this (polls ticks h).1 = this h
  ∧ (_last_mtime <$> _watcher (polls ticks h).1) = Some (Some m)
  ∧ (Forall (λ t, no_news (Some m) t.1) ticks → polls ticks h = (h, []))
  ∧ model_loaded (this h) = false.
Proof.
  intros Hf Ht. eexists. split; [reflexivity|].
  unfold polls. simpl.
  rewrite (load_model_fails_before_install fs (Detector_init c) Hf). simpl.
  set (w := set_thread _ _).
  pose proof (_watch_loop_no_call reload_callback ticks w (Detector_init c) [] Ht) as H.
  split; [|split; [|split; [|split; [|done]]]].
  - destruct (_watch_loop _ _ _) as [[[w' d'] calls] r]. simpl in H. by inversion H.
  - destruct (_watch_loop _ _ _) as [[[w' d'] calls] r]. simpl in H. by inversion H.
  - destruct (_watch_loop _ _ _) as [[[w' d'] calls] r]. simpl in H. inversion H.
    by destruct r.
  - intros Hn. by rewrite (_watch_loop_no_news reload_callback).
Qed.

(** A corrupt file at 200 s, polled three times. *)
Lemma failed_initial_load_is_not_retried_witness :
  let ticks := [(Py.Ok 200%float, Fixtures.fs_v100);
                (Py.Raise (Py.FileNotFoundError "models/test.pt"), Fixtures.fs_missing);
                (Py.Ok 200%float, Fixtures.fs_v100)] in
  ∃ h, serve Fixtures.model_config true Fixtures.fs_corrupt (Py.Ok 200%float) = Py.Ok h
  ∧ (polls ticks h).2 = []
  ∧ this (polls ticks h).1 = this h
  ∧ (_last_mtime <$> _watcher (polls ticks h).1) = Some (Some 200%float)
  ∧ (Forall (λ t, no_news (Some 200%float) t.1) ticks → polls ticks h = (h, []))
  ∧ model_loaded (this h) = false.
Proof.
  apply (failed_initial_load_is_not_retried Fixtures.model_config Fixtures.fs_corrupt
           200%float).
  - right. left. eexists. reflexivity.
  - repeat (apply Forall_cons; split; [reflexivity|]). apply Forall_nil_2.
Defined.

(** [start_hot_reload] on a detector that has a watcher keeps that
    watcher and the mtime it has on record; [stop_hot_reload] drops the
    watcher, so that a later [start_hot_reload] makes a fresh one with
    the file's mtime at that time on record; neither touches the
    detector's model, version or overlay. *)
Lemma hot_reload_switch (stat1 stat2 : Py.result float) (m : float) (h : Hot) :
  start_hot_reload stat2 (start_hot_reload stat1 h).1 =
    ((start_hot_reload stat1 h).1, Py.Ok ())
  ∧ stop_hot_reload (stop_hot_reload h) = stop_hot_reload h
  ∧ _watcher (stop_hot_reload (start_hot_reload stat1 h).1) = None
  ∧ (_last_mtime <$> _watcher
       (start_hot_reload (Py.Ok m) (stop_hot_reload (start_hot_reload stat1 h).1)).1)
    = Some (Some m)
  ∧ this (start_hot_reload stat1 h).1 = this h
  ∧ this (stop_hot_reload h) = this h.
Proof.
  unfold start_hot_reload, stop_hot_reload.
  destruct h as [d [w|]]; simpl; repeat split; try done.
  all: by destruct (start stat1 _).
Qed.

(** ** The sync script and the server *)

Lemma classes_snoc skus sku :
  imap ClassMapping_of (skus ++ [sku]) =
  (imap ClassMapping_of skus ++ [ClassMapping_of (length skus) sku])%list.
Proof. rewrite imap_app. simpl. by rewrite Nat.add_0_r. Qed.

Lemma update_ml_server_overlay skus d :
  _class_mapping (update_ml_server None skus d).2 =
  build_mapping (imap ClassMapping_of skus).
Proof. done. Qed.

(** The two dicts of [update_training_config] are the two halves of
    the overlay that the servicer builds from the same messages. *)
Lemma names_of_build_mapping cs :
  foldl (λ names c, <[ClassInfo.class_id c := ClassInfo.class_name c]> names) ∅ cs
  = snd <$> build_mapping cs.
Proof.
  induction cs as [|c cs IH] using rev_ind.
  { unfold build_mapping. simpl. by rewrite fmap_empty. }
  by rewrite build_mapping_snoc, foldl_app, fmap_insert, <- IH.
Qed.

Lemma sku_mapping_of_build_mapping cs :
  foldl (λ m c, <[ClassInfo.class_id c := ClassInfo.sku_id c]> m) ∅ cs
  = fst <$> build_mapping cs.
Proof.
  induction cs as [|c cs IH] using rev_ind.
  { unfold build_mapping. simpl. by rewrite fmap_empty. }
  by rewrite build_mapping_snoc, foldl_app, fmap_insert, <- IH.
Qed.

Lemma length_remove_dups_NoDup {A} `{EqDecision A} (l : list A) :
  length (remove_dups l) = length l ↔ NoDup l.
Proof.
  induction l as [|x l IH]; simpl; [by split; [constructor|]|].
  pose proof (length_remove_dups_le l) as Hle.
  destruct (decide_rel _ _ _) as [Hin|Hin]; simpl.
  - split; [lia|]. intros Hn. apply NoDup_cons in Hn as [Hx _]. done.
  - rewrite NoDup_cons. split.
    + intros H. split; [done|]. apply IH. lia.
    + intros [_ Hn]. apply IH in Hn. lia.
Qed.

(** X17. When no SKU of the catalog carries a class id, the script
    numbers the SKUs by position: after [update_ml_server] the overlay
    maps [i] to the [i]-th SKU, with its id (or ["<i>"]) as external id
    and its name (or ["beverage_<i>"]) as display name, has no other
    key, and holds as many classes as there are SKUs. *)
Theorem update_ml_server_by_position (skus : list Sku.t) (d : Detector) :
  Forall (λ sku, Sku.class_id sku = None) skus →
  let overlay := _class_mapping (update_ml_server None skus d).2 in
  (∀ i : nat,
     overlay !! Z.of_nat i =
     (λ sku, (default (pretty (Z.of_nat i)) (Sku.id sku),
              default ("beverage_" +:+ pretty (Z.of_nat i)) (Sku.name sku)))
       <$> skus !! i)
  ∧ (∀ k, k < 0 → overlay !! k = None)
  ∧ size overlay = length skus.
Proof.
  intros Hs overlay. subst overlay. rewrite update_ml_server_overlay.
  induction skus as [|sku skus IH] using rev_ind.
  { unfold build_mapping. simpl. split; [|split]; [| |done].
    - intros i. by rewrite lookup_empty.
    - intros k _. by rewrite lookup_empty. }
  apply Forall_app in Hs as [Hs Hsku]. apply Forall_inv in Hsku.
  destruct (IH Hs) as (IH1 & IH2 & IH3).
  destruct sku as [cid sid sname]. simpl in Hsku. subst cid.
  rewrite classes_snoc, build_mapping_snoc.
  change (ClassMapping_of (length skus)
            {| Sku.class_id := None; Sku.id := sid; Sku.name := sname |})
    with {| ClassInfo.class_id := Z.of_nat (length skus);
            ClassInfo.sku_id := default (pretty (Z.of_nat (length skus))) sid;
            ClassInfo.class_name :=
              default ("beverage_" +:+ pretty (Z.of_nat (length skus))) sname |}.
  cbn [ClassInfo.class_id ClassInfo.sku_id ClassInfo.class_name].
  assert (build_mapping (imap ClassMapping_of skus) !! Z.of_nat (length skus) = None)
    as Hfresh.
  { rewrite IH1. by rewrite lookup_ge_None_2. }
  split; [|split].
  - intros i. rewrite lookup_insert. case_decide as Hi.
    + apply Nat2Z.inj in Hi. subst i.
      by rewrite lookup_app_r, Nat.sub_diag by done.
    + rewrite IH1. assert (i ≠ length skus) by congruence.
      destruct (decide (i < length skus)%nat).
      * by rewrite lookup_app_l.
      * rewrite !lookup_ge_None_2; [done| |lia].
        rewrite length_app. simpl. lia.
  - intros k Hk. rewrite lookup_insert_ne by lia. by apply IH2.
  - rewrite map_size_insert_None by done. rewrite length_app, IH3. simpl. lia.
Qed.

(** The two plain SKUs of the fixtures. *)
Lemma update_ml_server_by_position_witness :
  let overlay := _class_mapping
                   (update_ml_server None skus_plain
                      (Detector_init Fixtures.model_config)).2 in
  (∀ i : nat,
     overlay !! Z.of_nat i =
     (λ sku, (default (pretty (Z.of_nat i)) (Sku.id sku),
              default ("beverage_" +:+ pretty (Z.of_nat i)) (Sku.name sku)))
       <$> skus_plain !! i)
  ∧ (∀ k, k < 0 → overlay !! k = None)
  ∧ size overlay = length skus_plain.
Proof.
  apply (update_ml_server_by_position skus_plain (Detector_init Fixtures.model_config)).
  repeat (apply Forall_cons; split; [reflexivity|]). apply Forall_nil_2.
Defined.

(** The overlay of the fixtures' two plain SKUs. *)
Example update_ml_server_plain :
  let d := (update_ml_server None skus_plain (Detector_init Fixtures.model_config)).2 in
  _class_mapping d !! 0 = Some ("sku-001", "Coca-Cola")
  ∧ _class_mapping d !! 1 = Some ("1", "beverage_1").
Proof. vm_compute. done. Qed.

(** X18. The server ends up with as many classes as the catalog has
    SKUs exactly when the class ids the script sends (the SKU's own, or
    its position) are all different; otherwise it ends up with fewer,
    an explicit id and a position having met on one class. *)
Theorem update_ml_server_class_count (skus : list Sku.t) (d : Detector) :
  let overlay := _class_mapping (update_ml_server None skus d).2 in
  (size overlay ≤ length skus)%nat
  ∧ (size overlay = length skus ↔ NoDup (sent_ids skus))
  ∧ (∀ k, is_Some (overlay !! k) ↔ k ∈ sent_ids skus).
Proof.
  intros overlay. subst overlay. rewrite update_ml_server_overlay.
  unfold sent_ids. rewrite build_mapping_size.
  pose proof (length_remove_dups_le (ClassInfo.class_id <$> imap ClassMapping_of skus))
    as Hle.
  rewrite length_fmap, length_imap in Hle.
  split; [done|]. split.
  - rewrite <- length_remove_dups_NoDup. by rewrite length_fmap, length_imap.
  - intros k. rewrite <- elem_of_dom, build_mapping_dom. apply elem_of_list_to_set.
Qed.

(** In the fixtures' catalog the second SKU carries the class id 2,
    which is also the position of the third: two classes for three
    SKUs, and class 2 is the third SKU. *)
Example update_ml_server_collision :
  let d := (update_ml_server None skus_colliding (Detector_init Fixtures.model_config)).2 in
  size (_class_mapping d) = 2%nat
  ∧ _class_mapping d !! 2 = Some ("2", "beverage_2").
Proof. vm_compute. done. Qed.

(** X19. A run of the script with both [--update-config] and
    [--update-server], on a catalog that is not empty, a configuration
    file that is absent or holds a mapping, and a server that answers,
    exits with 0 and leaves file and server in agreement: [nc] is the
    number of classes of the overlay, and for every class id [names]
    holds the overlay's display name and [sku_mapping] its external
    id. *)
Theorem sync_main_config_agrees_with_server (skus : list Sku.t) (world : SyncWorld)
    (m : gmap string yaml_value) :
  skus ≠ [] →
  config_file world = None ∧ m = ∅ ∨ config_file world = Some (YMapping m) →
  ∃ written names sku_mapping,
    sync_main true true (Skus skus) None world =
      (Py.Ok 0, {| config_file := Some (YMapping written);
                   server := (update_ml_server None skus (server world)).2 |})
    ∧ let overlay := _class_mapping (update_ml_server None skus (server world)).2 in
      written !! "nc" = Some (YInt (Z.of_nat (size overlay)))
      ∧ written !! "names" = Some (YByClass names)
      ∧ written !! "sku_mapping" = Some (YByClass sku_mapping)
      ∧ ∀ k, names !! k = snd <$> overlay !! k
             ∧ sku_mapping !! k = fst <$> overlay !! k.
Proof.
  intros Hne Hfile.
  assert (update_training_config (config_file world) skus =
          Py.Ok (<["sku_mapping" := YByClass (fst <$> build_mapping (imap ClassMapping_of skus))]>
                   (<["names" := YByClass (snd <$> build_mapping (imap ClassMapping_of skus))]>
                      (<["nc" := YInt (Z.of_nat (size (build_mapping (imap ClassMapping_of skus))))]> m))))
    as Hw.
  { unfold update_training_config.
    rewrite names_of_build_mapping, sku_mapping_of_build_mapping, map_size_fmap.
    by destruct Hfile as [[-> ->]| ->]. }
  eexists _, _, _. split.
  - unfold sync_main. simpl. destruct skus as [|sku skus]; [done|].
    rewrite Hw. reflexivity.
  - rewrite update_ml_server_overlay. simpl.
    rewrite lookup_insert_ne, lookup_insert_ne, lookup_insert_eq by done.
    rewrite lookup_insert_ne, lookup_insert_eq by done.
    rewrite lookup_insert_eq.
    repeat split; try done; by rewrite lookup_fmap.
Qed.

(** The colliding catalog of the fixtures, no configuration file yet. *)
Lemma sync_main_config_agrees_with_server_witness :
  let world := {| config_file := None; server := Detector_init Fixtures.model_config |} in
  ∃ written names sku_mapping,
    sync_main true true (Skus skus_colliding) None world =
      (Py.Ok 0, {| config_file := Some (YMapping written);
                   server := (update_ml_server None skus_colliding (server world)).2 |})
    ∧ let overlay :=
        _class_mapping (update_ml_server None skus_colliding (server world)).2 in
      written !! "nc" = Some (YInt (Z.of_nat (size overlay)))
      ∧ written !! "names" = Some (YByClass names)
      ∧ written !! "sku_mapping" = Some (YByClass sku_mapping)
      ∧ ∀ k, names !! k = snd <$> overlay !! k
             ∧ sku_mapping !! k = fst <$> overlay !! k.
Proof.
  intros world.
  apply (sync_main_config_agrees_with_server skus_colliding world ∅).
  - discriminate.
  - left. split; reflexivity.
Defined.



(** X21. The script touches nothing when it has nothing to do: called
    without [--update-config] and [--update-server], or when the
    catalog cannot be fetched, it exits with 1; when the catalog is
    empty it exits with 0; in all three cases the configuration file
    and the server's overlay are as they were, so that an empty catalog
    never clears the overlay. *)
Theorem sync_main_leaves_world_untouched (update_config update_server : bool)
    (fetch : fetched) (rpc_error : option string) (world : SyncWorld) :
  (update_config = false ∧ update_server = false)
  ∨ (∃ msg, fetch = RequestException msg) ∨ fetch = Skus [] →
  ∃ exit_code,
    sync_main update_config update_server fetch rpc_error world = (Py.Ok exit_code, world)
    ∧ (exit_code = 0 ↔ (update_config || update_server = true ∧ fetch = Skus [])).
Proof.
  unfold sync_main. intros [[-> ->]|[[msg ->]| ->]].
  - exists 1. simpl. split; [done|]. split; [done|]. by intros [? _].
  - destruct (negb update_config && negb update_server);
      (exists 1; split; [done|]; split; [done|]; by intros [_ ?]).
  - destruct update_config, update_server; simpl.
    1-3: exists 0; split; [done|]; done.
    exists 1. split; [done|]. split; [done|]. by intros [? _].
Qed.

(** An empty catalog, with both flags, against a server that has an
    overlay. *)
Lemma sync_main_leaves_world_untouched_witness :
  let world := {| config_file := None;
                  server := update_class_mapping Fixtures.mapping_old
                              (Detector_init Fixtures.model_config) |} in
  ∃ exit_code,
    sync_main true true (Skus []) None world = (Py.Ok exit_code, world)
    ∧ (exit_code = 0 ↔ (true || true = true ∧ Skus [] = Skus [])).
Proof.
  intros world.
  apply (sync_main_leaves_world_untouched true true (Skus []) None world).
  right. right. reflexivity.
Defined.

(** X22. The script writes the configuration before it calls the
    server.  When the call fails, the run exits with 1 and the server
    keeps its overlay, but the configuration file has been rewritten
    all the same: file and server may then disagree. *)
Theorem sync_main_rpc_failure_after_config (skus : list Sku.t) (world : SyncWorld)
    (m : gmap string yaml_value) (details : string) :
  skus ≠ [] →
  config_file world = None ∧ m = ∅ ∨ config_file world = Some (YMapping m) →
  ∃ written,
    update_training_config (config_file world) skus = Py.Ok written
    ∧ sync_main true true (Skus skus) (Some details) world =
      (Py.Ok 1, {| config_file := Some (YMapping written); server := server world |})
    ∧ written !! "nc"
      = Some (YInt (Z.of_nat (length (remove_dups (sent_ids skus))))).
Proof.
  intros Hne Hfile.
  assert (∃ written, update_training_config (config_file world) skus = Py.Ok written
                     ∧ written !! "nc"
                       = Some (YInt (Z.of_nat (length (remove_dups (sent_ids skus))))))
    as (written & Hw & Hnc).
  { unfold update_training_config.
    rewrite names_of_build_mapping, map_size_fmap, build_mapping_size.
    destruct Hfile as [[-> ->]| ->]; (eexists; split; [reflexivity|]);
      by rewrite lookup_insert_ne, lookup_insert_ne, lookup_insert_eq. }
  exists written. split; [done|]. split; [|done].
  unfold sync_main. simpl. destruct skus as [|sku skus]; [done|].
  by rewrite Hw.
Qed.

(** Both flags, no configuration file yet, and a server that cannot be
    reached. *)
Lemma sync_main_rpc_failure_after_config_witness :
  let world := {| config_file := None; server := Detector_init Fixtures.model_config |} in
  ∃ written,
    update_training_config (config_file world) skus_plain = Py.Ok written
    ∧ sync_main true true (Skus skus_plain) (Some "failed to connect") world =
      (Py.Ok 1, {| config_file := Some (YMapping written); server := server world |})
    ∧ written !! "nc"
      = Some (YInt (Z.of_nat (length (remove_dups (sent_ids skus_plain))))).
Proof.
  intros world.
  apply (sync_main_rpc_failure_after_config skus_plain world ∅ "failed to connect").
  - discriminate.
  - left. split; reflexivity.
Defined.

(** X23. A configuration file that is empty, or holds something other
    than a mapping, makes a run with [--update-config] raise: the
    exception escapes [main], nothing is written, and the server is not
    called even with [--update-server]. *)
Theorem sync_main_config_not_a_mapping (update_server : bool) (sku : Sku.t)
    (skus : list Sku.t) (rpc_error : option string) (world : SyncWorld) :
  config_file world = Some YNone ∨ config_file world = Some YNotMapping →
  ∃ e, sync_main true update_server (Skus (sku :: skus)) rpc_error world
       = (Py.Raise e, world).
Proof.
  intros [H|H]; unfold sync_main, update_training_config; rewrite H; simpl; eauto.
Qed.

(** An empty configuration file. *)
Lemma sync_main_config_not_a_mapping_witness :
  let world := {| config_file := Some YNone;
                  server := Detector_init Fixtures.model_config |} in
  ∃ e, sync_main true true (Skus skus_plain) None world = (Py.Raise e, world).
Proof.
  intros world.
  apply (sync_main_config_not_a_mapping true
           {| Sku.class_id := None; Sku.id := Some "sku-001"; Sku.name := Some "Coca-Cola" |}
           [ {| Sku.class_id := None; Sku.id := None; Sku.name := None |} ] None world).
  left. reflexivity.
Defined.
